(** * storyphy.ai: the storybook pipeline of [app.py]

    A shallow embedding of [app.py] (story generation, per-page illustration,
    document assembly, the [/create] handler) and the properties of the
    pipeline's specification that can be stated over it.

    Conventions of the embedding.
    - Python values that travel through the pipeline ([json.loads] results,
      the offline sample story, page records) are values of [pyval]; a [dict]
      is an association list in insertion order, keys being [str].
    - A Python [str] is a Rocq [string] holding its UTF-8 encoding.
    - Exceptions are values of [exn] (a class and the text of [str(e)]); only
      subclasses of [Exception] are modelled, which is what [except Exception]
      catches.
    - Everything outside the process (the HTTP services, [uuid4], the file
      system, the PDF engine) and the large library functions ([json.loads],
      [base64.b64decode], [str.upper], [str.title], [hash]) are fields of
      [Env]; the effects of a run are recorded in [World]. The small ones
      ([int], [range], [dict.get], subscripts, [os.path.join]) are written
      out, [int] and [hash] as CPython 3.11 computes them.
    - The template [story.html] is not among the sources; its rendering is
      modelled from the specification ([render_story_template]). *)

From Stdlib Require Import ZArith List String Ascii Bool Lia.
From Stdlib.Strings Require Import Byte.
From Stdlib Require Import DecimalString DecimalPos.
From Stdlib Require DecimalFacts.
Import ListNotations.

Local Open Scope string_scope.
Local Open Scope Z_scope.

Set Warnings "-register-all".

(** ** Python values *)

Inductive pyval : Type :=
| PNone
| PBool (b : bool)
| PInt (n : Z)
| PFloat (bits : Z)                       (* IEEE-754 binary64 bit pattern *)
| PStr (s : string)
| PList (items : list pyval)
| PTuple (items : list pyval)
| PDict (entries : list (string * pyval)).

Inductive exn_class : Type :=
| AttributeError | TypeError | KeyError | IndexError | ValueError
| RuntimeError | OSError
| RequestException                        (* requests: connection, timeout *)
| HTTPError                               (* requests: raise_for_status *)
| JSONDecodeError
| BinasciiError
| OtherError.

(** An exception: its class and [str(e)]. *)
Record exn : Type := Exn { exn_cls : exn_class; exn_msg : string }.

Definition result (A : Type) : Type := (exn + A)%type.
Definition Ok {A} (a : A) : result A := inr a.
Definition Err {A} (e : exn) : result A := inl e.

Definition bytes : Type := list byte.

(** ** Strings

    A [str] is represented by its UTF-8 encoding. *)

Definition code_of (c : ascii) : Z := Z.of_nat (nat_of_ascii c).

Definition char_of (n : Z) : ascii := ascii_of_nat (Z.to_nat n).

(** A byte that continues a character begun before it. *)
Definition is_continuation (c : ascii) : bool :=
  (128 <=? code_of c) && (code_of c <? 192).

Definition starts_with_continuation (s : string) : bool :=
  match s with
  | String c _ => is_continuation c
  | EmptyString => false
  end.

(** The characters of a string, each with the bytes that encode it. *)
Fixpoint split_chars (s : string) : list string :=
  match s with
  | EmptyString => []
  | String c rest =>
      match split_chars rest with
      | g :: gs =>
          if starts_with_continuation rest then String c g :: gs
          else String c EmptyString :: g :: gs
      | [] => [String c EmptyString]
      end
  end.

(** The code points of a string; [need] continuation bytes are still awaited
    for the character whose leading bits are [acc]. [None] when the bytes are
    not the encoding of a string. *)
Fixpoint decode_from (s : string) (need : nat) (acc : Z) : option (list Z) :=
  match s with
  | EmptyString =>
      match need with
      | O => Some []
      | S _ => None
      end
  | String c rest =>
      let b := code_of c in
      match need with
      | O =>
          if b <? 128 then option_map (cons b) (decode_from rest 0 0)
          else if (194 <=? b) && (b <? 224) then decode_from rest 1 (Z.land b 31)
          else if (224 <=? b) && (b <? 240) then decode_from rest 2 (Z.land b 15)
          else if (240 <=? b) && (b <? 245) then decode_from rest 3 (Z.land b 7)
          else None
      | S k =>
          if is_continuation c then
            let acc' := 64 * acc + Z.land b 63 in
            match k with
            | O => option_map (cons acc') (decode_from rest 0 0)
            | S _ => decode_from rest k acc'
            end
          else None
      end
  end.

Definition utf8_code_points (s : string) : option (list Z) := decode_from s 0 0.

Fixpoint is_ascii (s : string) : bool :=
  match s with
  | EmptyString => true
  | String c rest => (code_of c <? 128) && is_ascii rest
  end.

Fixpoint string_of_codes (l : list Z) : string :=
  match l with
  | [] => EmptyString
  | n :: rest => String (char_of n) (string_of_codes rest)
  end.

(** The UTF-8 encoding of one code point. *)
Definition utf8_of (cp : Z) : string :=
  if cp <? 128 then string_of_codes [cp]
  else if cp <? 2048 then
    string_of_codes [192 + cp / 64; 128 + cp mod 64]
  else if cp <? 65536 then
    string_of_codes [224 + cp / 4096; 128 + (cp / 64) mod 64; 128 + cp mod 64]
  else
    string_of_codes [240 + cp / 262144; 128 + (cp / 4096) mod 64;
                     128 + (cp / 64) mod 64; 128 + cp mod 64].

(** ** Dictionaries, subscripts, truthiness *)

Fixpoint assoc_lookup {V} (k : string) (l : list (string * V)) : option V :=
  match l with
  | [] => None
  | (k', v) :: rest => if String.eqb k k' then Some v else assoc_lookup k rest
  end.

(** [d.get(key, default)] on a [dict]. *)
Definition dict_get (entries : list (string * pyval)) (key : string)
    (default : pyval) : pyval :=
  match assoc_lookup key entries with
  | Some v => v
  | None => default
  end.

(** [v.get(key, default)] on an arbitrary value: only a [dict] has [.get]. *)
Definition py_get (v : pyval) (key : string) (default : pyval) : result pyval :=
  match v with
  | PDict entries => Ok (dict_get entries key default)
  | _ => Err (Exn AttributeError "object has no attribute 'get'")
  end.

(** [v[key]] with a [str] key. *)
Definition getitem_str (v : pyval) (key : string) : result pyval :=
  match v with
  | PDict entries =>
      match assoc_lookup key entries with
      | Some x => Ok x
      | None => Err (Exn KeyError key)
      end
  | PList _ | PTuple _ | PStr _ =>
      Err (Exn TypeError "indices must be integers or slices, not str")
  | _ => Err (Exn TypeError "object is not subscriptable")
  end.

(** [v[0]]. *)
Definition getitem_0 (v : pyval) : result pyval :=
  match v with
  | PList (x :: _) | PTuple (x :: _) => Ok x
  | PList [] | PTuple [] => Err (Exn IndexError "index out of range")
  | PStr s =>
      match split_chars s with
      | c :: _ => Ok (PStr c)
      | [] => Err (Exn IndexError "string index out of range")
      end
  | PDict _ => Err (Exn KeyError "0")
  | _ => Err (Exn TypeError "object is not subscriptable")
  end.

(** Truthiness of a [str] and of a [bytes] object. *)
Definition str_truthy (s : string) : bool :=
  match s with EmptyString => false | _ => true end.

Definition bytes_truthy (b : bytes) : bool :=
  match b with [] => false | _ => true end.

(** [range(lo, hi)]. *)
Definition py_range (lo hi : Z) : list Z :=
  map (fun i => lo + Z.of_nat i) (seq 0 (Z.to_nat (hi - lo))).

(** [str(n)] for an [int]. *)
Definition str_of_int (n : Z) : string :=
  NilZero.string_of_int (Z.to_int n).

(** [f"{v}"]: [format(v, "")], which is [str(v)]. The text of a float, list,
    tuple or dict is left to [repr_other]. *)
Definition py_format (repr_other : pyval -> string) (v : pyval) : string :=
  match v with
  | PStr s => s
  | PInt n => str_of_int n
  | PNone => "None"
  | PBool true => "True"
  | PBool false => "False"
  | _ => repr_other v
  end.

(** [hash] raises [TypeError] on a list, a dict, or a tuple that holds one. *)
Fixpoint hashable (v : pyval) : bool :=
  match v with
  | PList _ | PDict _ => false
  | PTuple items => forallb hashable items
  | _ => true
  end.

(** [os.path.join(a, b)] on POSIX. *)
Definition path_join (a b : string) : string :=
  match b with
  | String "/"%char _ => b
  | _ => a ++ "/" ++ b
  end.

Definition nl : string := String (ascii_of_nat 10) EmptyString.

(** ** The outside world *)

Record HttpRequest : Type := {
  req_url : string;
  req_headers : list (string * string);
  req_json : pyval;
  req_timeout : Z }.

(** A response: its status and what [r.json()] gives. *)
Record HttpResponse : Type := {
  status_code : Z;
  resp_json : result pyval }.

(** The rendering of [story.html]: title, synopsis, and one section per page
    (the page's text and its image path, if any). A field is [None] where the
    template variable is undefined. *)
Record DocSection : Type := {
  sec_text : option pyval;
  sec_image : option string }.

Record Rendered : Type := {
  doc_title : option pyval;
  doc_synopsis : option pyval;
  doc_child : string;
  doc_sections : list DocSection }.

Inductive file_data : Type :=
| FText (doc : Rendered)
| FBytes (b : bytes).

(** Configuration (lines 12-16), library functions taken as given, and the
    behaviour of the outside world. A [nat] argument is the position of the
    event in the run, so that an oracle may answer every call differently. *)
Record Env : Type := {
  OPENAI_API_KEY : string;
  STABILITY_API_KEY : string;
  IMAGE_PROVIDER : string;
  str_upper : string -> string;
  str_title : string -> string;
  repr_other : pyval -> string;
  hash_value : pyval -> Z;                 (* [hash] of a hashable value *)
  json_loads : string -> result pyval;
  b64decode : string -> result bytes;
  http_post : HttpRequest -> nat -> result HttpResponse;
  uuid4_hex : nat -> string;
  fs_write : string -> nat -> option exn;  (* [Some e]: open or write raises *)
  write_pdf : Rendered -> nat -> result bytes }.

Definition OUTPUT_DIR : string := "output".

(** What a run has done so far; lists are newest first. [files] holds the
    writes that were completed: a write that raises adds nothing to it, and
    the empty or partial file that such a write may leave behind is not
    recorded. *)
Record World : Type := {
  clock : nat;
  sent : list HttpRequest;
  files : list (string * file_data);
  flashed : list string }.

Definition world0 : World :=
  {| clock := 0; sent := []; files := []; flashed := [] |}.

(** ** State and exceptions *)

Definition M (A : Type) : Type := World -> result A * World.

Definition ret {A} (a : A) : M A := fun w => (Ok a, w).

Definition raise {A} (e : exn) : M A := fun w => (Err e, w).

Definition bind {A B} (m : M A) (k : A -> M B) : M B :=
  fun w =>
    match m w with
    | (inr a, w') => k a w'
    | (inl e, w') => (inl e, w')
    end.

(** [try: m  except Exception as e: h e]. *)
Definition try_except {A} (m : M A) (h : exn -> M A) : M A :=
  fun w =>
    match m w with
    | (inr a, w') => (inr a, w')
    | (inl e, w') => h e w'
    end.

Definition lift {A} (r : result A) : M A := fun w => (r, w).

Declare Scope py_scope.
Delimit Scope py_scope with py.
Notation "x <- m ;; k" := (bind m (fun x => k))
  (at level 61, m at next level, right associativity) : py_scope.
Notation "m ;;; k" := (bind m (fun _ => k))
  (at level 61, right associativity) : py_scope.
Local Open Scope py_scope.

Definition tick (w : World) : World :=
  {| clock := S (clock w); sent := sent w; files := files w;
     flashed := flashed w |}.

(** The world once [data] has been written to [path]. *)
Definition stored (path : string) (data : file_data) (w : World) : World :=
  {| clock := S (clock w); sent := sent w;
     files := (path, data) :: files w; flashed := flashed w |}.

(** ** [int(s)] for a [str]

    [int] in base ten, as CPython 3.11 computes it with its default settings
    (Unicode 14): a string that is not ASCII first has its Unicode white
    space replaced by a space and its Unicode decimal digits by ASCII digits;
    then come optional white space, an optional sign, digits with single
    underscores allowed between them, and optional white space. More than
    4300 digits are refused. Both refusals are [ValueError]s. *)

(** White space for the C scanner: tab to carriage return, and space. *)
Definition is_space (c : ascii) : bool :=
  (9 <=? code_of c) && (code_of c <=? 13) || (code_of c =? 32).

Definition digit_of (c : ascii) : option Z :=
  if (48 <=? code_of c) && (code_of c <=? 57) then Some (code_of c - 48)
  else None.

(** The white space of Unicode from code point 127 on. *)
Definition unicode_spaces : list Z :=
  [133; 160; 5760; 8192; 8193; 8194; 8195; 8196; 8197; 8198; 8199; 8200;
   8201; 8202; 8232; 8233; 8239; 8287; 12288].

(** The code points of the digit zero of every decimal digit set of Unicode
    14; the nine that follow each are its digits one to nine. *)
Definition decimal_zeros : list Z :=
  [48; 1632; 1776; 1984; 2406; 2534; 2662; 2790; 2918; 3046; 3174; 3302;
   3430; 3558; 3664; 3792; 3872; 4160; 4240; 6112; 6160; 6470; 6608; 6784;
   6800; 6992; 7088; 7232; 7248; 42528; 43216; 43264; 43472; 43504; 43600;
   44016; 65296; 66720; 68912; 69734; 69872; 69942; 70096; 70384; 70736;
   70864; 71248; 71360; 71472; 71904; 72016; 72784; 73040; 73120; 92768;
   92864; 93008; 120782; 120792; 120802; 120812; 120822; 123200; 123632;
   125264; 130032].

Definition decimal_value (cp : Z) : option Z :=
  match find (fun z => (z <=? cp) && (cp <=? z + 9)) decimal_zeros with
  | Some z => Some (cp - z)
  | None => None
  end.

(** What a character becomes before the scan: itself below 127, a space for
    white space, the ASCII digit for a decimal digit, [?] otherwise. *)
Definition to_ascii (cp : Z) : Z :=
  if cp <? 127 then cp
  else if existsb (Z.eqb cp) unicode_spaces then 32
  else
    match decimal_value cp with
    | Some d => 48 + d
    | None => 63
    end.

Definition transformed (s : string) : string :=
  if is_ascii s then s
  else
    match utf8_code_points s with
    | Some cps => string_of_codes (map to_ascii cps)
    | None => "?"
    end.

Fixpoint skip_spaces (s : string) : string :=
  match s with
  | String c rest => if is_space c then skip_spaces rest else s
  | EmptyString => EmptyString
  end.

(** The run of digits and underscores at the head of [s]: its value after
    [acc], the number of its digits after [count], and what follows it.
    [None] when two underscores meet or one ends the run. *)
Fixpoint scan_digits (s : string) (acc : Z) (count : nat) (after_underscore : bool)
    : option (Z * nat * string) :=
  match s with
  | EmptyString =>
      if after_underscore then None else Some (acc, count, EmptyString)
  | String c rest =>
      if Ascii.eqb c "_"%char then
        if after_underscore then None else scan_digits rest acc count true
      else
        match digit_of c with
        | Some d => scan_digits rest (10 * acc + d) (S count) false
        | None => if after_underscore then None else Some (acc, count, s)
        end
  end.

Definition max_str_digits : nat := 4300.

(** [repr] of a string, for the message: quotes chosen as [repr] chooses
    them, backslash escapes for the quote, the backslash and the characters
    that do not print. *)
Definition hex_digit (n : Z) : ascii :=
  if n <? 10 then char_of (48 + n) else char_of (87 + n).

Fixpoint hex (width : nat) (n : Z) : string :=
  match width with
  | O => EmptyString
  | S k => hex k (n / 16) ++ String (hex_digit (n mod 16)) EmptyString
  end.

(** The ranges of code points from 256 on that do not print (Unicode 14, the
    version of CPython 3.11): controls, formats, separators other than the
    space, surrogates, private use and unassigned. *)
Definition unprintable_ranges : list (Z * Z) :=
  [ (888, 889); (896, 899); (907, 907); (909, 909); (930, 930); (1328, 1328);
    (1367, 1368); (1419, 1420); (1424, 1424); (1480, 1487); (1515, 1518);
    (1525, 1541); (1564, 1564); (1757, 1757); (1806, 1807); (1867, 1868);
    (1970, 1983); (2043, 2044); (2094, 2095); (2111, 2111); (2140, 2141);
    (2143, 2143); (2155, 2159); (2191, 2199); (2274, 2274); (2436, 2436);
    (2445, 2446); (2449, 2450); (2473, 2473); (2481, 2481); (2483, 2485);
    (2490, 2491); (2501, 2502); (2505, 2506); (2511, 2518); (2520, 2523);
    (2526, 2526); (2532, 2533); (2559, 2560); (2564, 2564); (2571, 2574);
    (2577, 2578); (2601, 2601); (2609, 2609); (2612, 2612); (2615, 2615);
    (2618, 2619); (2621, 2621); (2627, 2630); (2633, 2634); (2638, 2640);
    (2642, 2648); (2653, 2653); (2655, 2661); (2679, 2688); (2692, 2692);
    (2702, 2702); (2706, 2706); (2729, 2729); (2737, 2737); (2740, 2740);
    (2746, 2747); (2758, 2758); (2762, 2762); (2766, 2767); (2769, 2783);
    (2788, 2789); (2802, 2808); (2816, 2816); (2820, 2820); (2829, 2830);
    (2833, 2834); (2857, 2857); (2865, 2865); (2868, 2868); (2874, 2875);
    (2885, 2886); (2889, 2890); (2894, 2900); (2904, 2907); (2910, 2910);
    (2916, 2917); (2936, 2945); (2948, 2948); (2955, 2957); (2961, 2961);
    (2966, 2968); (2971, 2971); (2973, 2973); (2976, 2978); (2981, 2983);
    (2987, 2989); (3002, 3005); (3011, 3013); (3017, 3017); (3022, 3023);
    (3025, 3030); (3032, 3045); (3067, 3071); (3085, 3085); (3089, 3089);
    (3113, 3113); (3130, 3131); (3141, 3141); (3145, 3145); (3150, 3156);
    (3159, 3159); (3163, 3164); (3166, 3167); (3172, 3173); (3184, 3190);
    (3213, 3213); (3217, 3217); (3241, 3241); (3252, 3252); (3258, 3259);
    (3269, 3269); (3273, 3273); (3278, 3284); (3287, 3292); (3295, 3295);
    (3300, 3301); (3312, 3312); (3315, 3327); (3341, 3341); (3345, 3345);
    (3397, 3397); (3401, 3401); (3408, 3411); (3428, 3429); (3456, 3456);
    (3460, 3460); (3479, 3481); (3506, 3506); (3516, 3516); (3518, 3519);
    (3527, 3529); (3531, 3534); (3541, 3541); (3543, 3543); (3552, 3557);
    (3568, 3569); (3573, 3584); (3643, 3646); (3676, 3712); (3715, 3715);
    (3717, 3717); (3723, 3723); (3748, 3748); (3750, 3750); (3774, 3775);
    (3781, 3781); (3783, 3783); (3790, 3791); (3802, 3803); (3808, 3839);
    (3912, 3912); (3949, 3952); (3992, 3992); (4029, 4029); (4045, 4045);
    (4059, 4095); (4294, 4294); (4296, 4300); (4302, 4303); (4681, 4681);
    (4686, 4687); (4695, 4695); (4697, 4697); (4702, 4703); (4745, 4745);
    (4750, 4751); (4785, 4785); (4790, 4791); (4799, 4799); (4801, 4801);
    (4806, 4807); (4823, 4823); (4881, 4881); (4886, 4887); (4955, 4956);
    (4989, 4991); (5018, 5023); (5110, 5111); (5118, 5119); (5760, 5760);
    (5789, 5791); (5881, 5887); (5910, 5918); (5943, 5951); (5972, 5983);
    (5997, 5997); (6001, 6001); (6004, 6015); (6110, 6111); (6122, 6127);
    (6138, 6143); (6158, 6158); (6170, 6175); (6265, 6271); (6315, 6319);
    (6390, 6399); (6431, 6431); (6444, 6447); (6460, 6463); (6465, 6467);
    (6510, 6511); (6517, 6527); (6572, 6575); (6602, 6607); (6619, 6621);
    (6684, 6685); (6751, 6751); (6781, 6782); (6794, 6799); (6810, 6815);
    (6830, 6831); (6863, 6911); (6989, 6991); (7039, 7039); (7156, 7163);
    (7224, 7226); (7242, 7244); (7305, 7311); (7355, 7356); (7368, 7375);
    (7419, 7423); (7958, 7959); (7966, 7967); (8006, 8007); (8014, 8015);
    (8024, 8024); (8026, 8026); (8028, 8028); (8030, 8030); (8062, 8063);
    (8117, 8117); (8133, 8133); (8148, 8149); (8156, 8156); (8176, 8177);
    (8181, 8181); (8191, 8207); (8232, 8239); (8287, 8303); (8306, 8307);
    (8335, 8335); (8349, 8351); (8385, 8399); (8433, 8447); (8588, 8591);
    (9255, 9279); (9291, 9311); (11124, 11125); (11158, 11158);
    (11508, 11512); (11558, 11558); (11560, 11564); (11566, 11567);
    (11624, 11630); (11633, 11646); (11671, 11679); (11687, 11687);
    (11695, 11695); (11703, 11703); (11711, 11711); (11719, 11719);
    (11727, 11727); (11735, 11735); (11743, 11743); (11870, 11903);
    (11930, 11930); (12020, 12031); (12246, 12271); (12284, 12288);
    (12352, 12352); (12439, 12440); (12544, 12548); (12592, 12592);
    (12687, 12687); (12772, 12783); (12831, 12831); (42125, 42127);
    (42183, 42191); (42540, 42559); (42744, 42751); (42955, 42959);
    (42962, 42962); (42964, 42964); (42970, 42993); (43053, 43055);
    (43066, 43071); (43128, 43135); (43206, 43213); (43226, 43231);
    (43348, 43358); (43389, 43391); (43470, 43470); (43482, 43485);
    (43519, 43519); (43575, 43583); (43598, 43599); (43610, 43611);
    (43715, 43738); (43767, 43776); (43783, 43784); (43791, 43792);
    (43799, 43807); (43815, 43815); (43823, 43823); (43884, 43887);
    (44014, 44015); (44026, 44031); (55204, 55215); (55239, 55242);
    (55292, 63743); (64110, 64111); (64218, 64255); (64263, 64274);
    (64280, 64284); (64311, 64311); (64317, 64317); (64319, 64319);
    (64322, 64322); (64325, 64325); (64451, 64466); (64912, 64913);
    (64968, 64974); (64976, 65007); (65050, 65055); (65107, 65107);
    (65127, 65127); (65132, 65135); (65141, 65141); (65277, 65280);
    (65471, 65473); (65480, 65481); (65488, 65489); (65496, 65497);
    (65501, 65503); (65511, 65511); (65519, 65531); (65534, 65535);
    (65548, 65548); (65575, 65575); (65595, 65595); (65598, 65598);
    (65614, 65615); (65630, 65663); (65787, 65791); (65795, 65798);
    (65844, 65846); (65935, 65935); (65949, 65951); (65953, 65999);
    (66046, 66175); (66205, 66207); (66257, 66271); (66300, 66303);
    (66340, 66348); (66379, 66383); (66427, 66431); (66462, 66462);
    (66500, 66503); (66518, 66559); (66718, 66719); (66730, 66735);
    (66772, 66775); (66812, 66815); (66856, 66863); (66916, 66926);
    (66939, 66939); (66955, 66955); (66963, 66963); (66966, 66966);
    (66978, 66978); (66994, 66994); (67002, 67002); (67005, 67071);
    (67383, 67391); (67414, 67423); (67432, 67455); (67462, 67462);
    (67505, 67505); (67515, 67583); (67590, 67591); (67593, 67593);
    (67638, 67638); (67641, 67643); (67645, 67646); (67670, 67670);
    (67743, 67750); (67760, 67807); (67827, 67827); (67830, 67834);
    (67868, 67870); (67898, 67902); (67904, 67967); (68024, 68027);
    (68048, 68049); (68100, 68100); (68103, 68107); (68116, 68116);
    (68120, 68120); (68150, 68151); (68155, 68158); (68169, 68175);
    (68185, 68191); (68256, 68287); (68327, 68330); (68343, 68351);
    (68406, 68408); (68438, 68439); (68467, 68471); (68498, 68504);
    (68509, 68520); (68528, 68607); (68681, 68735); (68787, 68799);
    (68851, 68857); (68904, 68911); (68922, 69215); (69247, 69247);
    (69290, 69290); (69294, 69295); (69298, 69375); (69416, 69423);
    (69466, 69487); (69514, 69551); (69580, 69599); (69623, 69631);
    (69710, 69713); (69750, 69758); (69821, 69821); (69827, 69839);
    (69865, 69871); (69882, 69887); (69941, 69941); (69960, 69967);
    (70007, 70015); (70112, 70112); (70133, 70143); (70162, 70162);
    (70207, 70271); (70279, 70279); (70281, 70281); (70286, 70286);
    (70302, 70302); (70314, 70319); (70379, 70383); (70394, 70399);
    (70404, 70404); (70413, 70414); (70417, 70418); (70441, 70441);
    (70449, 70449); (70452, 70452); (70458, 70458); (70469, 70470);
    (70473, 70474); (70478, 70479); (70481, 70486); (70488, 70492);
    (70500, 70501); (70509, 70511); (70517, 70655); (70748, 70748);
    (70754, 70783); (70856, 70863); (70874, 71039); (71094, 71095);
    (71134, 71167); (71237, 71247); (71258, 71263); (71277, 71295);
    (71354, 71359); (71370, 71423); (71451, 71452); (71468, 71471);
    (71495, 71679); (71740, 71839); (71923, 71934); (71943, 71944);
    (71946, 71947); (71956, 71956); (71959, 71959); (71990, 71990);
    (71993, 71994); (72007, 72015); (72026, 72095); (72104, 72105);
    (72152, 72153); (72165, 72191); (72264, 72271); (72355, 72367);
    (72441, 72703); (72713, 72713); (72759, 72759); (72774, 72783);
    (72813, 72815); (72848, 72849); (72872, 72872); (72887, 72959);
    (72967, 72967); (72970, 72970); (73015, 73017); (73019, 73019);
    (73022, 73022); (73032, 73039); (73050, 73055); (73062, 73062);
    (73065, 73065); (73103, 73103); (73106, 73106); (73113, 73119);
    (73130, 73439); (73465, 73647); (73649, 73663); (73714, 73726);
    (74650, 74751); (74863, 74863); (74869, 74879); (75076, 77711);
    (77811, 77823); (78895, 82943); (83527, 92159); (92729, 92735);
    (92767, 92767); (92778, 92781); (92863, 92863); (92874, 92879);
    (92910, 92911); (92918, 92927); (92998, 93007); (93018, 93018);
    (93026, 93026); (93048, 93052); (93072, 93759); (93851, 93951);
    (94027, 94030); (94088, 94094); (94112, 94175); (94181, 94191);
    (94194, 94207); (100344, 100351); (101590, 101631); (101641, 110575);
    (110580, 110580); (110588, 110588); (110591, 110591); (110883, 110927);
    (110931, 110947); (110952, 110959); (111356, 113663); (113771, 113775);
    (113789, 113791); (113801, 113807); (113818, 113819); (113824, 118527);
    (118574, 118575); (118599, 118607); (118724, 118783); (119030, 119039);
    (119079, 119080); (119155, 119162); (119275, 119295); (119366, 119519);
    (119540, 119551); (119639, 119647); (119673, 119807); (119893, 119893);
    (119965, 119965); (119968, 119969); (119971, 119972); (119975, 119976);
    (119981, 119981); (119994, 119994); (119996, 119996); (120004, 120004);
    (120070, 120070); (120075, 120076); (120085, 120085); (120093, 120093);
    (120122, 120122); (120127, 120127); (120133, 120133); (120135, 120137);
    (120145, 120145); (120486, 120487); (120780, 120781); (121484, 121498);
    (121504, 121504); (121520, 122623); (122655, 122879); (122887, 122887);
    (122905, 122906); (122914, 122914); (122917, 122917); (122923, 123135);
    (123181, 123183); (123198, 123199); (123210, 123213); (123216, 123535);
    (123567, 123583); (123642, 123646); (123648, 124895); (124903, 124903);
    (124908, 124908); (124911, 124911); (124927, 124927); (125125, 125126);
    (125143, 125183); (125260, 125263); (125274, 125277); (125280, 126064);
    (126133, 126208); (126270, 126463); (126468, 126468); (126496, 126496);
    (126499, 126499); (126501, 126502); (126504, 126504); (126515, 126515);
    (126520, 126520); (126522, 126522); (126524, 126529); (126531, 126534);
    (126536, 126536); (126538, 126538); (126540, 126540); (126544, 126544);
    (126547, 126547); (126549, 126550); (126552, 126552); (126554, 126554);
    (126556, 126556); (126558, 126558); (126560, 126560); (126563, 126563);
    (126565, 126566); (126571, 126571); (126579, 126579); (126584, 126584);
    (126589, 126589); (126591, 126591); (126602, 126602); (126620, 126624);
    (126628, 126628); (126634, 126634); (126652, 126703); (126706, 126975);
    (127020, 127023); (127124, 127135); (127151, 127152); (127168, 127168);
    (127184, 127184); (127222, 127231); (127406, 127461); (127491, 127503);
    (127548, 127551); (127561, 127567); (127570, 127583); (127590, 127743);
    (128728, 128732); (128749, 128751); (128765, 128767); (128884, 128895);
    (128985, 128991); (129004, 129007); (129009, 129023); (129036, 129039);
    (129096, 129103); (129114, 129119); (129160, 129167); (129198, 129199);
    (129202, 129279); (129620, 129631); (129646, 129647); (129653, 129655);
    (129661, 129663); (129671, 129679); (129709, 129711); (129723, 129727);
    (129734, 129743); (129754, 129759); (129768, 129775); (129783, 129791);
    (129939, 129939); (129995, 130031); (130042, 131071); (173792, 173823);
    (177977, 177983); (178206, 178207); (183970, 183983); (191457, 194559);
    (195102, 196607); (201547, 917759); (918000, 1114111) ].

Definition is_printable (cp : Z) : bool :=
  if cp <? 256 then
    negb ((cp <? 32) || ((127 <=? cp) && (cp <=? 160)) || (cp =? 173))
  else
    negb (existsb (fun r => (fst r <=? cp) && (cp <=? snd r))
            unprintable_ranges).

Definition repr_char (quote : Z) (cp : Z) : string :=
  if (cp =? quote) || (cp =? 92) then String "\"%char (string_of_codes [cp])
  else if cp =? 9 then "\t"
  else if cp =? 10 then "\n"
  else if cp =? 13 then "\r"
  else if is_printable cp then utf8_of cp
  else if cp <? 256 then "\x" ++ hex 2 cp
  else if cp <? 65536 then "\u" ++ hex 4 cp
  else "\U" ++ hex 8 cp.

Definition repr_str (s : string) : string :=
  match utf8_code_points s with
  | Some cps =>
      let quote :=
        if existsb (Z.eqb 39) cps && negb (existsb (Z.eqb 34) cps)
        then 34 else 39 in
      string_of_codes [quote]
      ++ concat EmptyString (map (repr_char quote) cps)
      ++ string_of_codes [quote]
  | None => "'" ++ s ++ "'"
  end.

(** The message shows the first 200 characters of the [repr]. *)
Definition invalid_literal (s : string) : exn :=
  Exn ValueError
    ("invalid literal for int() with base 10: "
     ++ concat EmptyString (firstn 200 (split_chars (repr_str s)))).

Definition too_many_digits (count : nat) : exn :=
  Exn ValueError
    ("Exceeds the limit (4300 digits) for integer string conversion: value has "
     ++ str_of_int (Z.of_nat count)
     ++ " digits; use sys.set_int_max_str_digits() to increase the limit").

Definition int_of_str (s : string) : result Z :=
  let body := skip_spaces (transformed s) in
  let (negative, digits) :=
    match body with
    | String "-"%char rest => (true, rest)
    | String "+"%char rest => (false, rest)
    | _ => (false, body)
    end in
  match digits with
  | String "_"%char _ => Err (invalid_literal s)
  | _ =>
      match scan_digits digits 0 0 false with
      | None => Err (invalid_literal s)
      | Some (value, count, rest) =>
          if (max_str_digits <? count)%nat then Err (too_many_digits count)
          else
            match count, skip_spaces rest with
            | S _, EmptyString => Ok (if negative then - value else value)
            | _, _ => Err (invalid_literal s)
            end
      end
  end.

(** ** Iteration *)

Definition chars_of (s : string) : list pyval := map PStr (split_chars s).

(** The items a [for] loop sees: elements of a list or tuple, characters of a
    string, keys of a dict; anything else is not iterable. *)
Definition py_iter (v : pyval) : result (list pyval) :=
  match v with
  | PList items | PTuple items => Ok items
  | PStr s => Ok (chars_of s)
  | PDict entries => Ok (map (fun kv => PStr (fst kv)) entries)
  | _ => Err (Exn TypeError "object is not iterable")
  end.

(** [for x in xs: s = body x s]. *)
Fixpoint for_each {A S} (xs : list A) (body : A -> S -> M S) (s : S) : M S :=
  match xs with
  | [] => ret s
  | x :: rest => s' <- body x s ;; for_each rest body s'
  end.

(** The outcome of [m], caught: the value or the exception. *)
Definition attempt {A} (m : M A) : M (result A) :=
  fun w => let (r, w') := m w in (Ok r, w').

(** ** The template [story.html] *)

(** A field of a record as a template reads it ([p.page_text]); undefined when
    it is missing. *)
Definition template_field (v : pyval) (key : string) : option pyval :=
  match v with
  | PDict entries => assoc_lookup key entries
  | _ => None
  end.

Definition template_pages (story : pyval) : list pyval :=
  match template_field story "pages" with
  | Some (PList ps) => ps
  | _ => []
  end.

Fixpoint page_sections (ps : list pyval) (images : list (option string))
    : list DocSection :=
  match ps with
  | [] => []
  | p :: rest =>
      {| sec_text := template_field p "page_text";
         sec_image := match images with i :: _ => i | [] => None end |}
      :: page_sections rest (tl images)
  end.

(** Modelled from the spec: the template [templates/story.html], which
    [render_template] expands, is not among the sources. The specification
    (4.5) describes the document it builds: title, synopsis, and one section
    per page pairing the page's text with the page's image, or with a
    placeholder when the image is absent, in the order received. *)
Definition render_story_template (story : pyval)
    (images : list (option string)) (child_name : string) : Rendered :=
  {| doc_title := template_field story "title";
     doc_synopsis := template_field story "synopsis";
     doc_child := child_name;
     doc_sections := page_sections (template_pages story) images |}.

(** ** The program *)

(** What the [/create] view returns. *)
Inductive Response : Type :=
| Redirect (location : string)
| SendFile (body : bytes) (download_name : string) (mimetype : string).

Definition float_0_8 : pyval := PFloat 0x3FE999999999999A.

Section Program.

Variable env : Env.

(** *** Effects *)

(** [requests.post(url, headers=..., json=..., timeout=...)]. *)
Definition requests_post (req : HttpRequest) : M HttpResponse :=
  fun w =>
    (http_post env req (clock w),
     {| clock := S (clock w); sent := req :: sent w; files := files w;
        flashed := flashed w |}).

(** [r.raise_for_status()]. *)
Definition raise_for_status (r : HttpResponse) : M unit :=
  if (400 <=? status_code r) && (status_code r <? 600)
  then raise (Exn HTTPError ("HTTP error " ++ str_of_int (status_code r)))
  else ret tt.

(** [uuid.uuid4().hex[:n]]. *)
Definition uuid4_hex_prefix (n : nat) : M string :=
  fun w => (Ok (substring 0 n (uuid4_hex env (clock w))), tick w).

(** [with open(path, mode) as f: f.write(data)]: the write is completed, and
    recorded, or it raises. *)
Definition write_file (path : string) (data : file_data) : M unit :=
  fun w =>
    match fs_write env path (clock w) with
    | Some e => (Err e, tick w)
    | None => (Ok tt, stored path data w)
    end.

Definition flash (msg : string) : M unit :=
  fun w =>
    (Ok tt,
     {| clock := clock w; sent := sent w; files := files w;
        flashed := msg :: flashed w |}).

(** [HTML(string=rendered, base_url=...).write_pdf()]. *)
Definition html_write_pdf (doc : Rendered) : M bytes :=
  fun w => (write_pdf env doc (clock w), tick w).

(** *** Library calls on dynamic values *)

Definition fmt (v : pyval) : string := py_format (repr_other env) v.

Definition py_json_loads (text : pyval) : result pyval :=
  match text with
  | PStr s => json_loads env s
  | _ => Err (Exn TypeError "the JSON object must be str, bytes or bytearray")
  end.

Definition py_b64decode (v : pyval) : result bytes :=
  match v with
  | PStr s => b64decode env s
  | _ => Err (Exn TypeError "argument should be a bytes-like object or ASCII string")
  end.

Definition py_hash (v : pyval) : result Z :=
  if hashable v then Ok (hash_value env v)
  else Err (Exn TypeError "unhashable type").

(** *** [generate_story_with_openai] (lines 22-67) *)

Definition sample_page (name age theme : string) (i : Z) : pyval :=
  PDict
    [ ("page", PInt i);
      ("page_text",
       PStr ("Page " ++ str_of_int i ++ ": " ++ name
             ++ " does something fun in the " ++ theme ++ "."));
      ("image_description",
       PStr (name ++ " (age " ++ age ++ ") in a " ++ theme
             ++ " scene, playful composition.")) ].

(** Lines 29-34: the loop that appends one page per [i]. *)
Definition sample_pages (name age theme : string) (pages : Z) : list pyval :=
  fold_left (fun acc i => (acc ++ [sample_page name age theme i])%list)
            (py_range 1 (pages + 1)) [].

Definition sample_story (name age theme tone : string) (pages : Z) : pyval :=
  PDict
    [ ("title", PStr (name ++ " and the " ++ str_title env theme ++ " Adventure"));
      ("synopsis", PStr ("A short " ++ tone ++ " tale about " ++ name ++ "."));
      ("pages", PList (sample_pages name age theme pages)) ].

Definition story_request (name age theme tone : string) (pages : Z)
    : HttpRequest :=
  let system :=
    "You are a children's story writer. Output valid JSON with fields: title, synopsis, pages. "
    ++ "pages should be a list of objects with page (int), page_text (1-2 short sentences), image_description (short)." in
  let user_prompt :=
    "Write a children's story for a " ++ age ++ "-year-old named " ++ name
    ++ ". Theme: " ++ theme ++ ". Tone: " ++ tone ++ ". "
    ++ "Make " ++ str_of_int pages ++ " pages. Return only JSON (no extra text)." in
  {| req_url := "https://api.openai.com/v1/chat/completions";
     req_headers :=
       [ ("Authorization", "Bearer " ++ OPENAI_API_KEY env);
         ("Content-Type", "application/json") ];
     req_json :=
       PDict
         [ ("model", PStr "gpt-4o-mini");
           ("messages",
            PList [ PDict [("role", PStr "system"); ("content", PStr system)];
                    PDict [("role", PStr "user"); ("content", PStr user_prompt)] ]);
           ("max_tokens", PInt 800);
           ("temperature", float_0_8) ];
     req_timeout := 30 |}.

Definition unparsable (text : pyval) : exn :=
  Exn RuntimeError ("LLM returned unparsable JSON. Raw text:" ++ nl ++ fmt text).

(** Line 62: [data["choices"][0]["message"]["content"]]. *)
Definition response_text (data : pyval) : result pyval :=
  match getitem_str data "choices" with
  | inr choices =>
      match getitem_0 choices with
      | inr choice =>
          match getitem_str choice "message" with
          | inr message => getitem_str message "content"
          | inl e => Err e
          end
      | inl e => Err e
      end
  | inl e => Err e
  end.

Definition generate_story_with_openai (name age theme tone : string)
    (pages : Z) : M pyval :=
  if negb (str_truthy (OPENAI_API_KEY env)) then
    ret (sample_story name age theme tone pages)
  else
    r <- requests_post (story_request name age theme tone pages) ;;
    raise_for_status r ;;;
    data <- lift (resp_json r) ;;
    text <- lift (response_text data) ;;
    try_except
      (story_json <- lift (py_json_loads text) ;; ret story_json)
      (fun _ => raise (unparsable text)).

(** *** The image adapters (lines 69-102) *)

Definition seed_entry (seed : option Z) : list (string * pyval) :=
  match seed with
  | Some s => [("seed", PInt s)]
  | None => []
  end.

Definition generate_image_openai (prompt size : string) (seed : option Z)
    : M (option bytes) :=
  if negb (str_truthy (OPENAI_API_KEY env)) then ret None
  else
    r <- requests_post
           {| req_url := "https://api.openai.com/v1/images/generations";
              req_headers :=
                [ ("Authorization", "Bearer " ++ OPENAI_API_KEY env);
                  ("Content-Type", "application/json") ];
              req_json :=
                PDict ([ ("prompt", PStr prompt); ("n", PInt 1);
                         ("size", PStr size) ] ++ seed_entry seed)%list;
              req_timeout := 60 |} ;;
    raise_for_status r ;;;
    j <- lift (resp_json r) ;;
    data <- lift (getitem_str j "data") ;;
    first <- lift (getitem_0 data) ;;
    b64 <- lift (getitem_str first "b64_json") ;;
    img_bytes <- lift (py_b64decode b64) ;;
    ret (Some img_bytes).

Definition generate_image_stability (prompt : string) (width height : Z)
    (seed : option Z) : M (option bytes) :=
  if negb (str_truthy (STABILITY_API_KEY env)) then ret None
  else
    r <- requests_post
           {| req_url :=
                "https://api.stability.ai/v1/generation/stable-diffusion-v1-5/text-to-image";
              req_headers :=
                [ ("Authorization", "Bearer " ++ STABILITY_API_KEY env) ];
              req_json :=
                PDict ([ ("text_prompts", PList [PDict [("text", PStr prompt)]]);
                         ("width", PInt width); ("height", PInt height);
                         ("samples", PInt 1) ] ++ seed_entry seed)%list;
              req_timeout := 60 |} ;;
    raise_for_status r ;;;
    j <- lift (resp_json r) ;;
    artifacts <- lift (getitem_str j "artifacts") ;;
    first <- lift (getitem_0 artifacts) ;;
    b64 <- lift (getitem_str first "base64") ;;
    img_bytes <- lift (py_b64decode b64) ;;
    ret (Some img_bytes).

(** *** [generate_image] (lines 104-120) *)

Definition generate_image (prompt : string) (provider_hint : option string)
    (seed : option Z) : M (option string) :=
  let provider :=
    match provider_hint with
    | Some h => if str_truthy h then h else IMAGE_PROVIDER env
    | None => IMAGE_PROVIDER env
    end in
  uid <- uuid4_hex_prefix 12 ;;
  let out_path := path_join OUTPUT_DIR ("img_" ++ uid ++ ".png") in
  img_bytes <-
    (if String.eqb provider "openai" then
       generate_image_openai prompt "1024x1024" seed
     else if String.eqb provider "stability" then
       generate_image_stability prompt 1024 1024 seed
     else ret None) ;;
  match img_bytes with
  | Some b =>
      if bytes_truthy b then
        write_file out_path (FBytes b) ;;; ret (Some out_path)
      else ret None
  | None => ret None
  end.

(** *** [create] (lines 126-173) *)

Record StoryRequest : Type := {
  child_name : string;
  age : string;
  theme : string;
  tone : string;
  pages : Z }.

(** [request.form.get(key, default)]: the first value submitted for [key]. *)
Definition form_get (form : list (string * string)) (key default : string)
    : string :=
  match assoc_lookup key form with
  | Some v => v
  | None => default
  end.

(** [int(data.get("pages", 6))]. *)
Definition form_pages (form : list (string * string)) : result Z :=
  match assoc_lookup "pages" form with
  | Some s => int_of_str s
  | None => Ok 6
  end.

(** Lines 128-133. *)
Definition read_form (form : list (string * string)) : result StoryRequest :=
  let child_name := form_get form "name" "Child" in
  let age := form_get form "age" "5" in
  let theme := form_get form "theme" "jungle" in
  let tone := form_get form "tone" "playful" in
  match form_pages form with
  | inr pages =>
      Ok {| child_name := child_name; age := age; theme := theme;
            tone := tone; pages := pages |}
  | inl e => Err e
  end.

Definition char_token (name : string) : string :=
  "CHAR_" ++ str_upper env name ++ "_V1".

Definition child_descriptor (name age : string) : string :=
  name ++ ", age " ++ age
  ++ ", child character, friendly face, consistent across pages.".

(** Lines 146-150, for the value of [p.get('image_description','')]. *)
Definition image_prompt (name age : string) (description : pyval) : string :=
  char_token name ++ ": " ++ child_descriptor name age ++ ". "
  ++ fmt description ++ ". "
  ++ "Cartoon style, kid-friendly, bright colors, soft rounded shapes. Full scene for a children's book. "
  ++ "High detail for print, 300 DPI.".

(** Line 152: [hash((child_name, page)) % (2**32)]. *)
Definition derive_seed (name : string) (page : pyval) : result Z :=
  match py_hash (PTuple [PStr name; page]) with
  | inr h => Ok (h mod 2 ^ 32)
  | inl e => Err e
  end.

(** Lines 146-150 for the page [p]. *)
Definition page_prompt (name age : string) (p : pyval) : result string :=
  match py_get p "image_description" (PStr "") with
  | inr description => Ok (image_prompt name age description)
  | inl e => Err e
  end.

(** The [seed] argument of line 152 for the page [p]. *)
Definition page_seed (name : string) (p : pyval) : result Z :=
  match py_get p "page" (PInt 0) with
  | inr page => derive_seed name page
  | inl e => Err e
  end.

(** Line 152, the statement under [try]. *)
Definition page_image (name prompt : string) (p : pyval) : M (option string) :=
  seed <- lift (page_seed name p) ;;
  generate_image prompt None (Some seed).

(** Lines 146-156: the body of the loop, for one page [p]. *)
Definition illustrate_page (name age : string) (p : pyval)
    (page_images : list (option string)) : M (list (option string)) :=
  prompt <- lift (page_prompt name age p) ;;
  img_path <- try_except (page_image name prompt p) (fun _ => ret None) ;;
  ret (page_images ++ [img_path])%list.

(** Lines 141-156. *)
Definition illustrate (name age : string) (story : pyval)
    : M (list (option string)) :=
  story_pages <- lift (py_get story "pages" (PList [])) ;;
  ps <- lift (py_iter story_pages) ;;
  for_each ps (illustrate_page name age) [].

(** Lines 158-173. *)
Definition assemble (name : string) (story : pyval)
    (page_images : list (option string)) : M Response :=
  let rendered := render_story_template story page_images name in
  u <- uuid4_hex_prefix 8 ;;
  let html_file := path_join OUTPUT_DIR ("story_" ++ u ++ ".html") in
  write_file html_file (FText rendered) ;;;
  pdf_bytes <- html_write_pdf rendered ;;
  u' <- uuid4_hex_prefix 8 ;;
  let pdf_path :=
    path_join OUTPUT_DIR (name ++ "_storybook_" ++ u' ++ ".pdf") in
  write_file pdf_path (FBytes pdf_bytes) ;;;
  ret (SendFile pdf_bytes (name ++ "_storybook.pdf") "application/pdf").

Definition create (form : list (string * string)) : M Response :=
  req <- lift (read_form form) ;;
  outcome <- attempt (generate_story_with_openai (child_name req) (age req)
                        (theme req) (tone req) (pages req)) ;;
  match outcome with
  | inl e =>
      flash ("Error generating story: " ++ exn_msg e) ;;;
      ret (Redirect "/")
  | inr story =>
      page_images <- illustrate (child_name req) (age req) story ;;
      assemble (child_name req) story page_images
  end.

End Program.

(** ** The interpreter's [hash]

    [hash] of a [str], an [int] and a tuple as CPython 3.11 computes them on a
    64-bit platform (SipHash-1-3 keyed by the process's hash secret, reduction
    modulo [2^61 - 1], and the tuple combination). The secret is drawn when
    the process starts; with [PYTHONHASHSEED=n], [n > 0], it is derived from
    [n]. The hash of [None] and of a NaN depends on an address of the
    process; they hash to [0] here. *)

Module CPython.

Definition u64 (x : Z) : Z := x mod 2 ^ 64.

Definition rotl (x b : Z) : Z :=
  u64 (Z.lor (Z.shiftl x b) (Z.shiftr x (64 - b))).

(** The state [(v0, v1, v2, v3)] after one SipHash round. *)
Definition sip_round (v : Z * Z * Z * Z) : Z * Z * Z * Z :=
  let '(v0, v1, v2, v3) := v in
  let v0 := u64 (v0 + v1) in
  let v2 := u64 (v2 + v3) in
  let v1 := Z.lxor (rotl v1 13) v0 in
  let v3 := Z.lxor (rotl v3 16) v2 in
  let v0 := rotl v0 32 in
  let v2 := u64 (v2 + v1) in
  let v0 := u64 (v0 + v3) in
  let v1 := Z.lxor (rotl v1 17) v2 in
  let v3 := Z.lxor (rotl v3 21) v0 in
  let v2 := rotl v2 32 in
  (v0, v1, v2, v3).

Definition absorb (v : Z * Z * Z * Z) (m : Z) : Z * Z * Z * Z :=
  let '(v0, v1, v2, v3) := v in
  let '(v0, v1, v2, v3) := sip_round (v0, v1, v2, Z.lxor v3 m) in
  (Z.lxor v0 m, v1, v2, v3).

(** Little-endian value of a run of bytes. *)
Fixpoint le_word (bs : list Z) : Z :=
  match bs with
  | [] => 0
  | b :: rest => b + 256 * le_word rest
  end.

(** Absorbs the full 8-byte words of [bs]; returns the state and the tail of
    fewer than 8 bytes. [fuel] bounds the number of words. *)
Fixpoint sip_words (fuel : nat) (bs : list Z) (v : Z * Z * Z * Z)
    : (Z * Z * Z * Z) * list Z :=
  match fuel with
  | O => (v, bs)
  | S fuel' =>
      if (8 <=? List.length bs)%nat
      then sip_words fuel' (skipn 8 bs) (absorb v (le_word (firstn 8 bs)))
      else (v, bs)
  end.

Definition siphash13 (k0 k1 : Z) (src : list Z) : Z :=
  let len := Z.of_nat (List.length src) in
  let v := (Z.lxor k0 0x736f6d6570736575, Z.lxor k1 0x646f72616e646f6d,
            Z.lxor k0 0x6c7967656e657261, Z.lxor k1 0x7465646279746573) in
  let '(v, tail) := sip_words (List.length src) src v in
  let b := Z.lor (u64 (Z.shiftl len 56)) (le_word tail) in
  let '(v0, v1, v2, v3) := absorb v b in
  let v2 := Z.lxor v2 0xff in
  let '(v0, v1, v2, v3) := sip_round (sip_round (sip_round (v0, v1, v2, v3))) in
  Z.lxor (Z.lxor v0 v1) (Z.lxor v2 v3).

(** An unsigned 64-bit pattern read as [Py_hash_t]; [-1] is reserved. *)
Definition signed64 (x : Z) : Z := if x <? 2 ^ 63 then x else x - 2 ^ 64.

Definition not_minus_one (h : Z) : Z := if h =? -1 then -2 else h.

(** The 24 bytes of the hash secret for [PYTHONHASHSEED=seed], [seed > 0]. *)
Fixpoint lcg_urandom (n : nat) (x : Z) : list Z :=
  match n with
  | O => []
  | S n' =>
      let x' := (x * 214013 + 2531011) mod 2 ^ 32 in
      Z.land (Z.shiftr x' 16) 0xff :: lcg_urandom n' x'
  end.

Definition secret_of_seed (seed : Z) : list Z :=
  if seed =? 0 then repeat 0 24%nat else lcg_urandom 24 seed.

Fixpoint bytes_of (s : string) : list Z :=
  match s with
  | EmptyString => []
  | String c rest => code_of c :: bytes_of rest
  end.

(** The bytes that are hashed: the characters of the string as the
    interpreter stores them, on one, two or four bytes each (least significant
    first) according to the largest of them. *)
Definition str_buffer (s : string) : list Z :=
  match utf8_code_points s with
  | Some cps =>
      let top := fold_right Z.max 0 cps in
      if top <? 256 then cps
      else if top <? 65536 then
        flat_map (fun cp => [cp mod 256; cp / 256]) cps
      else
        flat_map (fun cp => [cp mod 256; (cp / 256) mod 256;
                             (cp / 65536) mod 256; cp / 16777216]) cps
  | None => bytes_of s
  end.

Definition hash_str (secret : list Z) (s : string) : Z :=
  match s with
  | EmptyString => 0
  | _ =>
      let k0 := le_word (firstn 8 secret) in
      let k1 := le_word (firstn 8 (skipn 8 secret)) in
      not_minus_one (signed64 (siphash13 k0 k1 (str_buffer s)))
  end.

Definition hash_int (n : Z) : Z :=
  let m := Z.abs n mod (2 ^ 61 - 1) in
  not_minus_one (if n <? 0 then - m else m).

(** [hash] of a float given by its 64 bits: the value [m * 2^e] reduced
    modulo [2^61 - 1], where [2^61] counts for [1]. *)
Definition hash_float (bits : Z) : Z :=
  let negative := Z.testbit bits 63 in
  let exponent := Z.shiftr bits 52 mod 2048 in
  let fraction := bits mod 2 ^ 52 in
  if exponent =? 2047 then
    if fraction =? 0 then (if negative then -314159 else 314159) else 0
  else
    let m := if exponent =? 0 then fraction else fraction + 2 ^ 52 in
    let e := if exponent =? 0 then -1074 else exponent - 1075 in
    let x := (m * 2 ^ (e mod 61)) mod (2 ^ 61 - 1) in
    not_minus_one (if negative then - x else x).

Definition XXPRIME_1 : Z := 11400714785074694791.
Definition XXPRIME_2 : Z := 14029467366897019727.
Definition XXPRIME_5 : Z := 2870177450012600261.

Definition hash_tuple (lanes : list Z) : Z :=
  let acc :=
    fold_left
      (fun acc lane =>
         u64 (rotl (u64 (acc + u64 lane * XXPRIME_2)) 31 * XXPRIME_1))
      lanes XXPRIME_5 in
  let acc :=
    u64 (acc + Z.lxor (Z.of_nat (List.length lanes)) (Z.lxor XXPRIME_5 3527539)) in
  if acc =? 2 ^ 64 - 1 then 1546275796 else signed64 acc.

(** [hash v] in a process whose hash secret is [secret]. *)
Fixpoint hash (secret : list Z) (v : pyval) : Z :=
  match v with
  | PStr s => hash_str secret s
  | PInt n => hash_int n
  | PBool b => if b then 1 else 0
  | PFloat bits => hash_float bits
  | PTuple items => hash_tuple (map (hash secret) items)
  | _ => 0
  end.

End CPython.

(** ** Concrete processes

    Environments on which the program can be run: ASCII versions of
    [str.upper] and [str.title], a table for [json.loads] and
    [base64.b64decode], scripted services. *)

Module Sample.

Definition is_lower (c : ascii) : bool :=
  let n := nat_of_ascii c in ((97 <=? n) && (n <=? 122))%nat.

Definition is_upper (c : ascii) : bool :=
  let n := nat_of_ascii c in ((65 <=? n) && (n <=? 90))%nat.

Definition to_upper (c : ascii) : ascii :=
  if is_lower c then ascii_of_nat (nat_of_ascii c - 32) else c.

Definition to_lower (c : ascii) : ascii :=
  if is_upper c then ascii_of_nat (nat_of_ascii c + 32) else c.

Fixpoint upper (s : string) : string :=
  match s with
  | EmptyString => EmptyString
  | String c rest => String (to_upper c) (upper rest)
  end.

(** [in_word]: the previous character was a letter. *)
Fixpoint title_from (in_word : bool) (s : string) : string :=
  match s with
  | EmptyString => EmptyString
  | String c rest =>
      if is_lower c || is_upper c then
        String (if in_word then to_lower c else to_upper c)
               (title_from true rest)
      else String c (title_from false rest)
  end.

Definition title (s : string) : string := title_from false s.

Definition lookup_or {A} (table : list (string * A)) (e : exn) (s : string)
    : result A :=
  match assoc_lookup s table with
  | Some v => Ok v
  | None => Err e
  end.

(** Thirty-two characters that differ from one call to the next. *)
Definition uuid_of (n : nat) : string :=
  substring 0 32
    (str_of_int (Z.of_nat n) ++ "a0b1c2d3e4f5a6b7c8d9e0f1a2b3c4d5").

Definition pdf_stub : bytes := ["%"; "P"; "D"; "F"]%byte.

(** A process: its credentials, its hash seed, the tables of its decoders,
    its HTTP peer and its storage. *)
Definition process (openai_key stability_key provider : string)
    (hash_seed : Z)
    (json_table : list (string * pyval))
    (b64_table : list (string * bytes))
    (post : HttpRequest -> nat -> result HttpResponse)
    (storage : string -> nat -> option exn) : Env :=
  {| OPENAI_API_KEY := openai_key;
     STABILITY_API_KEY := stability_key;
     IMAGE_PROVIDER := provider;
     str_upper := upper;
     str_title := title;
     repr_other := fun _ => "<object>";
     hash_value := CPython.hash (CPython.secret_of_seed hash_seed);
     json_loads := lookup_or json_table (Exn JSONDecodeError "Expecting value");
     b64decode := lookup_or b64_table (Exn BinasciiError "Incorrect padding");
     http_post := post;
     uuid4_hex := uuid_of;
     fs_write := storage;
     write_pdf := fun _ _ => Ok pdf_stub |}.

Definition no_network : HttpRequest -> nat -> result HttpResponse :=
  fun _ _ => Err (Exn RequestException "connection refused").

Definition storage_ok : string -> nat -> option exn := fun _ _ => None.

Definition storage_down : string -> nat -> option exn :=
  fun _ _ => Some (Exn OSError "No space left on device").

(** No credential at all, hash seed [seed]. *)
Definition offline (seed : Z) : Env :=
  process "" "" "openai" seed [] [] no_network storage_ok.

(** No credential, and a storage that refuses every write. *)
Definition offline_storage_down : Env :=
  process "" "" "openai" 1 [] [] no_network storage_down.

(** A chat completion whose message content is [content]. *)
Definition completion (content : string) : HttpResponse :=
  {| status_code := 200;
     resp_json :=
       Ok (PDict [("choices",
                   PList [PDict [("message",
                                  PDict [("content", PStr content)])]])]) |}.

(** A text provider that answers [content]; [json.loads] knows ["{}"]. *)
Definition text_provider (content : string) : Env :=
  process "sk-test" "" "none" 1 [("{}", PDict [])] []
          (fun _ _ => Ok (completion content)) storage_ok.

Definition image_ok : HttpResponse :=
  {| status_code := 200;
     resp_json := Ok (PDict [("data", PList [PDict [("b64_json", PStr "aGk=")]])]) |}.

Definition image_error : HttpResponse :=
  {| status_code := 500; resp_json := Ok (PDict []) |}.

(** An image provider that fails at the event numbered [bad] and delivers the
    two bytes of ["hi"] otherwise. *)
Definition image_provider (bad : nat) : Env :=
  process "sk-test" "" "openai" 1 [] [("aGk=", ["h"; "i"]%byte)]
          (fun _ n => if Nat.eqb n bad then Ok image_error else Ok image_ok)
          storage_ok.

(** The story that the text provider of [images_down] writes. *)
Definition two_page_story : pyval :=
  PDict
    [ ("title", PStr "Mina at sea");
      ("synopsis", PStr "Mina sails.");
      ("pages",
       PList
         [ PDict [ ("page", PInt 1); ("page_text", PStr "Mina finds a boat.");
                   ("image_description", PStr "a small boat") ];
           PDict [ ("page", PInt 2); ("page_text", PStr "Mina sails home.");
                   ("image_description", PStr "a harbour") ] ]) ].

(** The text provider answers with [two_page_story]; the image service
    answers every request with an HTTP error. *)
Definition images_down : Env :=
  process "sk-test" "" "openai" 1 [("STORY", two_page_story)] []
          (fun req _ =>
             if String.eqb (req_url req)
                  "https://api.openai.com/v1/chat/completions"
             then Ok (completion "STORY")
             else Ok image_error)
          storage_ok.

Definition mina_form : list (string * string) :=
  [("name", "Mina"); ("age", "6"); ("theme", "ocean"); ("tone", "playful");
   ("pages", "4")].

End Sample.

(** ** Vocabulary of the properties *)

(** What [try: ... except Exception: img_path = None] leaves in [img_path]:
    the value when the statement returns one, absent when it raises. *)
Definition absorbed {A} (r : result (option A)) : option A :=
  match r with
  | inr v => v
  | inl _ => None
  end.

(** A page record: a mapping, whatever fields it has. *)
Definition is_page (p : pyval) : Prop := exists entries, p = PDict entries.

(** [illustrated env name age ps w imgs w']: starting in [w], the pages [ps]
    were taken in order; each page's image was requested in the world left by
    the pages before it, and what the request gave, absorbed, is the page's
    entry of [imgs]. *)
Inductive illustrated (env : Env) (name age : string)
    : list pyval -> World -> list (option string) -> World -> Prop :=
| illustrated_nil : forall w, illustrated env name age [] w [] w
| illustrated_cons : forall p ps prompt w r w1 imgs w2,
    page_prompt env name age p = Ok prompt ->
    page_image env name prompt p w = (r, w1) ->
    illustrated env name age ps w1 imgs w2 ->
    illustrated env name age (p :: ps) w (absorbed r :: imgs) w2.

(** The Story schema of the specification (section 6), as a check on a parsed
    value: an object with a string [title], a string [synopsis] and a list
    [pages] of objects with an integer [page], a string [page_text] and a
    string [image_description]. *)
Definition is_str (v : option pyval) : bool :=
  match v with Some (PStr _) => true | _ => false end.

Definition is_int (v : option pyval) : bool :=
  match v with Some (PInt _) => true | _ => false end.

Definition page_schema (p : pyval) : bool :=
  is_int (template_field p "page")
  && is_str (template_field p "page_text")
  && is_str (template_field p "image_description").

Definition story_schema (v : pyval) : bool :=
  is_str (template_field v "title")
  && is_str (template_field v "synopsis")
  && match template_field v "pages" with
     | Some (PList ps) => forallb page_schema ps
     | _ => false
     end.

(** The text written by the offline stub for every page's image. *)
Definition generic_description (name age theme : string) : string :=
  name ++ " (age " ++ age ++ ") in a " ++ theme
  ++ " scene, playful composition.".

(** The world after the request for the story has been sent. *)
Definition story_requested (env : Env) (req : StoryRequest) (w : World)
    : World :=
  {| clock := S (clock w);
     sent := story_request env (child_name req) (age req) (theme req)
               (tone req) (pages req) :: sent w;
     files := files w;
     flashed := flashed w |}.

(** The value of the decimal digits [d] read after a prefix worth [acc]. *)
Fixpoint uint_value (d : Decimal.uint) (acc : Z) : Z :=
  match d with
  | Decimal.Nil => acc
  | Decimal.D0 l => uint_value l (10 * acc + 0)
  | Decimal.D1 l => uint_value l (10 * acc + 1)
  | Decimal.D2 l => uint_value l (10 * acc + 2)
  | Decimal.D3 l => uint_value l (10 * acc + 3)
  | Decimal.D4 l => uint_value l (10 * acc + 4)
  | Decimal.D5 l => uint_value l (10 * acc + 5)
  | Decimal.D6 l => uint_value l (10 * acc + 6)
  | Decimal.D7 l => uint_value l (10 * acc + 7)
  | Decimal.D8 l => uint_value l (10 * acc + 8)
  | Decimal.D9 l => uint_value l (10 * acc + 9)
  end.

(** ** Vocabulary of the further properties *)

(** The world once [req] has been sent. *)
Definition posted (req : HttpRequest) (w : World) : World :=
  {| clock := S (clock w); sent := req :: sent w; files := files w;
     flashed := flashed w |}.

(** The request of lines 72-77. *)
Definition openai_image_request (env : Env) (prompt size : string)
    (seed : option Z) : HttpRequest :=
  {| req_url := "https://api.openai.com/v1/images/generations";
     req_headers :=
       [ ("Authorization", "Bearer " ++ OPENAI_API_KEY env);
         ("Content-Type", "application/json") ];
     req_json :=
       PDict ([ ("prompt", PStr prompt); ("n", PInt 1);
                ("size", PStr size) ] ++ seed_entry seed)%list;
     req_timeout := 60 |}.

(** The request of lines 87-97. *)
Definition stability_image_request (env : Env) (prompt : string)
    (width height : Z) (seed : option Z) : HttpRequest :=
  {| req_url :=
       "https://api.stability.ai/v1/generation/stable-diffusion-v1-5/text-to-image";
     req_headers := [ ("Authorization", "Bearer " ++ STABILITY_API_KEY env) ];
     req_json :=
       PDict ([ ("text_prompts", PList [PDict [("text", PStr prompt)]]);
                ("width", PInt width); ("height", PInt height);
                ("samples", PInt 1) ] ++ seed_entry seed)%list;
     req_timeout := 60 |}.

(** The file name that [generate_image] draws in the world [w] (lines
    106-107). *)
Definition image_path (env : Env) (w : World) : string :=
  path_join OUTPUT_DIR
    ("img_" ++ substring 0 12 (uuid4_hex env (clock w)) ++ ".png").

(** A status that [raise_for_status] lets through. *)
Definition status_ok (r : HttpResponse) : Prop :=
  status_code r < 400 \/ 600 <= status_code r.

(** Line 80: [j["data"][0]["b64_json"]]. *)
Definition openai_b64 (j : pyval) : result pyval :=
  match getitem_str j "data" with
  | inr data =>
      match getitem_0 data with
      | inr first => getitem_str first "b64_json"
      | inl e => Err e
      end
  | inl e => Err e
  end.

(** Line 100: [j["artifacts"][0]["base64"]]. *)
Definition stability_b64 (j : pyval) : result pyval :=
  match getitem_str j "artifacts" with
  | inr artifacts =>
      match getitem_0 artifacts with
      | inr first => getitem_str first "base64"
      | inl e => Err e
      end
  | inl e => Err e
  end.

(** What an adapter returns once the encoded image has been read from the
    response (lines 80-82 and 100-102). *)
Definition decoded (env : Env) (field : result pyval) : result (option bytes) :=
  match field with
  | inr b64 =>
      match py_b64decode env b64 with
      | inr b => Ok (Some b)
      | inl e => Err e
      end
  | inl e => Err e
  end.

(** Lines 109-114: the adapter for [provider], or nothing. *)
Definition dispatch_image (env : Env) (provider prompt : string)
    (seed : option Z) : M (option bytes) :=
  if String.eqb provider "openai" then
    generate_image_openai env prompt "1024x1024" seed
  else if String.eqb provider "stability" then
    generate_image_stability env prompt 1024 1024 seed
  else ret None.

(** [w'] differs from [w] by at most one request sent: nothing stored,
    nothing flashed. *)
Definition one_request_at_most (w w' : World) : Prop :=
  files w' = files w
  /\ flashed w' = flashed w
  /\ (sent w' = sent w \/ exists req, sent w' = req :: sent w).

(** A computation that has no effect: it returns or raises in the world it
    was started in. *)
Definition silent {A} (m : M A) : Prop := forall w, snd (m w) = w.

(** The provider that [generate_image] dispatches on (line 105). *)
Definition chosen_provider (env : Env) (hint : option string) : string :=
  match hint with
  | Some h => if str_truthy h then h else IMAGE_PROVIDER env
  | None => IMAGE_PROVIDER env
  end.

(** The names that [assemble] draws in the world [w]: the intermediate
    document (line 160) and the final artifact (line 166). *)
Definition html_path (env : Env) (w : World) : string :=
  path_join OUTPUT_DIR
    ("story_" ++ substring 0 8 (uuid4_hex env (clock w)) ++ ".html").

Definition pdf_path (env : Env) (name : string) (w : World) : string :=
  path_join OUTPUT_DIR
    (name ++ "_storybook_"
     ++ substring 0 8 (uuid4_hex env (S (S (S (clock w))))) ++ ".pdf").

(** [w'] is [w] but for the clock: the same requests sent, files stored and
    notices flashed. *)
Definition same_apart_from_clock (w w' : World) : Prop :=
  sent w' = sent w /\ files w' = files w /\ flashed w' = flashed w.

(** Further processes to run the program on. *)
Module Scenario.

Definition stability_ok : HttpResponse :=
  {| status_code := 200;
     resp_json :=
       Ok (PDict [("artifacts", PList [PDict [("base64", PStr "aGk=")]])]) |}.

(** The image provider is [stability], configured, and delivers the two bytes
    of ["hi"]. *)
Definition stability_provider : Env :=
  Sample.process "" "sk-stab" "stability" 1 [] [("aGk=", ["h"; "i"]%byte)]
    (fun _ _ => Ok stability_ok) Sample.storage_ok.

Definition image_empty : HttpResponse :=
  {| status_code := 200;
     resp_json := Ok (PDict [("data", PList [PDict [("b64_json", PStr "")]])]) |}.

(** The image provider answers with an empty encoded image. *)
Definition empty_image_provider : Env :=
  Sample.process "sk-test" "" "openai" 1 [] [("", [])]
    (fun _ _ => Ok image_empty) Sample.storage_ok.

(** Both credentials are set, and the provider name is none of the known
    ones. *)
Definition unknown_provider : Env :=
  Sample.process "sk-test" "sk-stab" "dalle" 1 [] [("aGk=", ["h"; "i"]%byte)]
    (fun _ _ => Ok Sample.image_ok) Sample.storage_ok.

(** The image provider delivers, and the storage refuses every write. *)
Definition image_store_down : Env :=
  Sample.process "sk-test" "" "openai" 1 [] [("aGk=", ["h"; "i"]%byte)]
    (fun _ _ => Ok Sample.image_ok) Sample.storage_down.

(** The text provider cannot be reached. *)
Definition text_provider_unreachable : Env :=
  Sample.process "sk-test" "" "openai" 1 [] []
    Sample.no_network Sample.storage_ok.

(** The text provider answers with status 429. *)
Definition text_provider_busy : Env :=
  Sample.process "sk-test" "" "openai" 1 [] []
    (fun _ _ => Ok {| status_code := 429; resp_json := Ok (PDict []) |})
    Sample.storage_ok.

End Scenario.

(** * Properties *)

(** ** The monad *)

Lemma bind_ok {A B} (m : M A) (k : A -> M B) w a w1 :
  m w = (Ok a, w1) -> bind m k w = k a w1.
Proof. intros H. unfold bind. rewrite H. reflexivity. Qed.

Lemma bind_err {A B} (m : M A) (k : A -> M B) w e w1 :
  m w = (Err e, w1) -> bind m k w = (Err e, w1).
Proof. intros H. unfold bind. rewrite H. reflexivity. Qed.

(** A caught statement never raises. *)
Lemma try_except_absorbs {A} (m : M (option A)) w :
  try_except m (fun _ => ret None) w = (Ok (absorbed (fst (m w))), snd (m w)).
Proof.
  unfold try_except. destruct (m w) as [[e | v] w1]; reflexivity.
Qed.

(** ** The illustration loop *)

Lemma illustrate_page_spec env name age p acc prompt w :
  page_prompt env name age p = Ok prompt ->
  illustrate_page env name age p acc w
  = (Ok (acc ++ [absorbed (fst (page_image env name prompt p w))])%list,
     snd (page_image env name prompt p w)).
Proof.
  intros Hp. unfold illustrate_page.
  erewrite bind_ok by (unfold lift; rewrite Hp; reflexivity).
  erewrite bind_ok by apply try_except_absorbs.
  reflexivity.
Qed.

Lemma page_prompt_total env name age p :
  is_page p -> exists prompt, page_prompt env name age p = Ok prompt.
Proof.
  intros [entries ->]. unfold page_prompt. simpl. eauto.
Qed.

Lemma for_each_illustrated env name age ps :
  Forall is_page ps ->
  forall acc w,
  exists imgs w',
    for_each ps (illustrate_page env name age) acc w = (Ok (acc ++ imgs)%list, w')
    /\ illustrated env name age ps w imgs w'.
Proof.
  induction 1 as [| p ps Hp _ IH]; intros acc w.
  - exists [], w. simpl. rewrite app_nil_r. split; [reflexivity | constructor].
  - destruct (page_prompt_total env name age p Hp) as [prompt Hprompt].
    simpl.
    erewrite bind_ok by (apply illustrate_page_spec; eassumption).
    destruct (page_image env name prompt p w) as [r w1] eqn:Hrun. simpl.
    destruct (IH (acc ++ [absorbed r])%list w1) as (imgs & w' & Hloop & Hrel).
    exists (absorbed r :: imgs), w'. split.
    + rewrite Hloop. rewrite <- app_assoc. reflexivity.
    + econstructor; eassumption.
Qed.

Lemma illustrated_length env name age ps w imgs w' :
  illustrated env name age ps w imgs w' -> List.length imgs = List.length ps.
Proof.
  induction 1; simpl; congruence.
Qed.

(** C1. For a story whose [pages] is a sequence of [N] page records, the
    illustration loop returns normally, with exactly [N] results in the order
    of the pages: the result of a page is absent whenever its image
    generation returns absent or raises, and the pages after it are still
    processed. *)
Theorem illustrate_one_result_per_page env name age entries ps w :
  dict_get entries "pages" (PList []) = PList ps ->
  Forall is_page ps ->
  exists imgs w',
    illustrate env name age (PDict entries) w = (Ok imgs, w')
    /\ List.length imgs = List.length ps
    /\ illustrated env name age ps w imgs w'.
Proof.
  intros Hpages Hps.
  destruct (for_each_illustrated env name age ps Hps [] w)
    as (imgs & w' & Hloop & Hrel).
  exists imgs, w'. repeat split.
  - unfold illustrate. simpl. unfold bind, lift. rewrite Hpages. simpl.
    exact Hloop.
  - eapply illustrated_length; eassumption.
  - exact Hrel.
Qed.

Lemma illustrate_one_result_per_page_witness :
  let ps := sample_pages "Mina" "6" "ocean" 4 in
  let entries := [("title", PStr "Mina at sea"); ("pages", PList ps)] in
  dict_get entries "pages" (PList []) = PList ps
  /\ Forall is_page ps
  /\ exists imgs w',
       illustrate (Sample.image_provider 7) "Mina" "6" (PDict entries) world0
       = (Ok imgs, w')
       /\ List.length imgs = List.length ps
       /\ illustrated (Sample.image_provider 7) "Mina" "6" ps world0 imgs w'.
Proof.
  assert (Hps : Forall is_page (sample_pages "Mina" "6" "ocean" 4))
    by (repeat constructor; eexists; reflexivity).
  split; [reflexivity | split; [exact Hps |]].
  apply (illustrate_one_result_per_page (Sample.image_provider 7) "Mina" "6"
           [("title", PStr "Mina at sea");
            ("pages", PList (sample_pages "Mina" "6" "ocean" 4))]
           (sample_pages "Mina" "6" "ocean" 4) world0).
  - reflexivity.
  - exact Hps.
Defined.

(** The scenario of the specification: the provider fails on the third page
    only; four results come back, absent at the third place only. *)
Example illustrate_third_page_fails :
  fst (illustrate (Sample.image_provider 7) "Mina" "6"
         (sample_story (Sample.image_provider 7) "Mina" "6" "ocean" "playful" 4)
         world0)
  = Ok [ Some "output/img_0a0b1c2d3e4f.png";
         Some "output/img_3a0b1c2d3e4f.png";
         None;
         Some "output/img_8a0b1c2d3e4f.png" ].
Proof. vm_compute. reflexivity. Qed.

(** A page that is not a record is outside the loop's domain: reading its
    description raises before the guarded call, and the loop stops there. *)
Example illustrate_page_not_a_record :
  fst (illustrate (Sample.offline 1) "Mina" "6"
         (PDict [("pages", PList [PStr "page one"])]) world0)
  = Err (Exn AttributeError "object has no attribute 'get'").
Proof. reflexivity. Qed.

(** ** Whole jobs *)

(** The scenario of the specification with no credential configured: four
    pages of generic text, four absent illustrations, a document of four
    sections without images, delivered. *)
Example offline_job :
  fst (create (Sample.offline 1) Sample.mina_form world0)
  = Ok (SendFile Sample.pdf_stub "Mina_storybook.pdf" "application/pdf")
  /\ map fst (files (snd (create (Sample.offline 1) Sample.mina_form world0)))
     = ["output/Mina_storybook_7a0b1c2d.pdf"; "output/story_4a0b1c2d.html"]
  /\ match files (snd (create (Sample.offline 1) Sample.mina_form world0)) with
     | [_; (_, FText doc)] =>
         map sec_image (doc_sections doc) = [None; None; None; None]
         /\ map sec_text (doc_sections doc)
            = [ Some (PStr "Page 1: Mina does something fun in the ocean.");
                Some (PStr "Page 2: Mina does something fun in the ocean.");
                Some (PStr "Page 3: Mina does something fun in the ocean.");
                Some (PStr "Page 4: Mina does something fun in the ocean.") ]
     | _ => False
     end.
Proof. vm_compute. repeat split; reflexivity. Qed.

(** The scenario with a working text provider and an image service that
    answers every request with an HTTP error: the job completes, every
    illustration absent. *)
Example images_down_job :
  fst (create Sample.images_down Sample.mina_form world0)
  = Ok (SendFile Sample.pdf_stub "Mina_storybook.pdf" "application/pdf")
  /\ fst (illustrate Sample.images_down "Mina" "6" Sample.two_page_story world0)
     = Ok [None; None]
  /\ List.length
       (sent (snd (illustrate Sample.images_down "Mina" "6"
                     Sample.two_page_story world0)))
     = 2%nat.
Proof. vm_compute. repeat split; reflexivity. Qed.

(** ** Pages with missing fields *)

(** C10. The loop body on a page record with missing fields. When the record
    lacks the page-number field, the seed is derived without raising from
    page number [0], and the body is the guarded call of [generate_image]
    with that seed: it appends what the call gives, absent when it raises.
    When the record lacks the image-description field, the prompt is built
    without raising with the empty description, and the body is the guarded
    statement run with that prompt. When it lacks both, the body is the
    guarded call of [generate_image] with that prompt and that seed. In every
    case a result is appended for the page. *)
Theorem illustrate_page_missing_fields env name age entries acc w :
  let p := PDict entries in
  let seed0 := hash_value env (PTuple [PStr name; PInt 0]) mod 2 ^ 32 in
  let prompt0 := image_prompt env name age (PStr "") in
  let guarded (call : M (option string)) :=
    (Ok (acc ++ [absorbed (fst (call w))])%list, snd (call w)) in
  (assoc_lookup "page" entries = None ->
   page_seed env name p = Ok seed0
   /\ illustrate_page env name age p acc w
      = guarded (generate_image env
                   (image_prompt env name age
                      (dict_get entries "image_description" (PStr "")))
                   None (Some seed0)))
  /\ (assoc_lookup "image_description" entries = None ->
      page_prompt env name age p = Ok prompt0
      /\ fmt env (PStr "") = ""
      /\ illustrate_page env name age p acc w
         = guarded (page_image env name prompt0 p))
  /\ (assoc_lookup "page" entries = None ->
      assoc_lookup "image_description" entries = None ->
      illustrate_page env name age p acc w
      = guarded (generate_image env prompt0 None (Some seed0)))
  /\ exists img w',
       illustrate_page env name age p acc w = (Ok (acc ++ [img])%list, w').
Proof.
  intros p seed0 prompt0 guarded.
  assert (Hbody : forall prompt,
             page_prompt env name age p = Ok prompt ->
             illustrate_page env name age p acc w
             = guarded (page_image env name prompt p))
    by (intros prompt Hp;
        exact (illustrate_page_spec env name age p acc prompt w Hp)).
  assert (Hseed : assoc_lookup "page" entries = None ->
                  forall prompt,
                    page_image env name prompt p w
                    = generate_image env prompt None (Some seed0) w).
  { intros H prompt. unfold page_image, bind, lift, page_seed, p, py_get,
      dict_get. rewrite H. reflexivity. }
  assert (Hprompt : assoc_lookup "image_description" entries = None ->
                    page_prompt env name age p = Ok prompt0)
    by (intros H; unfold page_prompt, p, py_get, dict_get; rewrite H;
        reflexivity).
  split; [| split; [| split]].
  - intros H. split.
    + unfold page_seed, p, py_get, dict_get. rewrite H. reflexivity.
    + rewrite (Hbody (image_prompt env name age
                        (dict_get entries "image_description" (PStr ""))))
        by reflexivity.
      unfold guarded. rewrite (Hseed H). reflexivity.
  - intros H. split; [exact (Hprompt H) | split; [reflexivity |]].
    exact (Hbody prompt0 (Hprompt H)).
  - intros Hpage Hdesc. rewrite (Hbody prompt0 (Hprompt Hdesc)).
    unfold guarded. rewrite (Hseed Hpage). reflexivity.
  - rewrite (Hbody (image_prompt env name age
                      (dict_get entries "image_description" (PStr ""))))
      by reflexivity.
    unfold guarded. eauto.
Qed.

Lemma illustrate_page_missing_fields_witness :
  let env := Sample.image_provider 7 in
  let entries := [("page_text", PStr "Once upon a time.")] in
  let prompt0 := image_prompt env "Mina" "6" (PStr "") in
  assoc_lookup "page" entries = None
  /\ assoc_lookup "image_description" entries = None
  /\ page_seed env "Mina" (PDict entries) = Ok 179030413
  /\ page_prompt env "Mina" "6" (PDict entries) = Ok prompt0
  /\ illustrate_page env "Mina" "6" (PDict entries) [] world0
     = (Ok [absorbed (fst (generate_image env prompt0 None (Some 179030413)
                             world0))],
        snd (generate_image env prompt0 None (Some 179030413) world0))
  /\ fst (illustrate_page env "Mina" "6" (PDict entries) [] world0)
     = Ok [Some "output/img_0a0b1c2d3e4f.png"].
Proof.
  pose proof (illustrate_page_missing_fields (Sample.image_provider 7) "Mina"
                "6" [("page_text", PStr "Once upon a time.")] [] world0)
    as (Hseed & Hprompt & Hboth & _).
  assert (Hs : hash_value (Sample.image_provider 7)
                 (PTuple [PStr "Mina"; PInt 0]) mod 2 ^ 32 = 179030413)
    by (vm_compute; reflexivity).
  cbv zeta in *. rewrite Hs in *.
  split; [reflexivity | split; [reflexivity | split; [| split; [| split]]]].
  - exact (proj1 (Hseed eq_refl)).
  - exact (proj1 (Hprompt eq_refl)).
  - exact (Hboth eq_refl eq_refl).
  - rewrite (Hboth eq_refl eq_refl). vm_compute. reflexivity.
Defined.

(** ** A story without pages *)

(** C9 (claim as stated: a story with no pages makes the illustration step
    fail). It does not: for a story without a [pages] field the loop runs
    zero times and the step returns the empty sequence; the job goes on and
    delivers a document. *)
Lemma illustrate_no_pages_is_not_a_failure :
  illustrate (Sample.offline 1) "Mina" "6"
    (PDict [("title", PStr "Empty"); ("synopsis", PStr "Nothing happens.")])
    world0
  = (Ok [], world0)
  /\ ~ (exists e w',
          illustrate (Sample.offline 1) "Mina" "6"
            (PDict [("title", PStr "Empty"); ("synopsis", PStr "Nothing happens.")])
            world0
          = (Err e, w')).
Proof.
  split; [reflexivity |].
  intros (e & w' & H). vm_compute in H. discriminate H.
Qed.

(** C9 (amended). A story whose [pages] field is missing or is the empty
    list is not a failure of the illustration step: the step returns the
    empty sequence of results and touches nothing. *)
Theorem illustrate_no_pages env name age entries w :
  dict_get entries "pages" (PList []) = PList [] ->
  illustrate env name age (PDict entries) w = (Ok [], w).
Proof.
  intros H. unfold illustrate. simpl. unfold bind, lift. rewrite H.
  reflexivity.
Qed.

Lemma illustrate_no_pages_witness :
  dict_get [("title", PStr "Empty")] "pages" (PList []) = PList []
  /\ illustrate (Sample.offline 1) "Mina" "6" (PDict [("title", PStr "Empty")])
       world0
     = (Ok [], world0).
Proof.
  split; [reflexivity |].
  apply (illustrate_no_pages (Sample.offline 1) "Mina" "6"
           [("title", PStr "Empty")] world0).
  reflexivity.
Defined.

(** ** Unconfigured image providers *)

(** C5. Whatever the prompt and the seed, an image adapter whose credential
    is not configured returns the absent result: it does not raise, and it
    leaves the world as it found it (no request is sent). *)
Theorem unconfigured_adapter_returns_absent env prompt seed w :
  (OPENAI_API_KEY env = "" ->
   forall size, generate_image_openai env prompt size seed w = (Ok None, w))
  /\ (STABILITY_API_KEY env = "" ->
      forall width height,
        generate_image_stability env prompt width height seed w = (Ok None, w)).
Proof.
  split; intros Hkey; intros.
  - unfold generate_image_openai. rewrite Hkey. reflexivity.
  - unfold generate_image_stability. rewrite Hkey. reflexivity.
Qed.

Lemma unconfigured_adapter_returns_absent_witness :
  OPENAI_API_KEY (Sample.offline 1) = ""
  /\ STABILITY_API_KEY (Sample.offline 1) = ""
  /\ generate_image_openai (Sample.offline 1) "a prompt" "1024x1024" (Some 7)
       world0 = (Ok None, world0)
  /\ generate_image_stability (Sample.offline 1) "a prompt" 1024 1024 (Some 7)
       world0 = (Ok None, world0).
Proof.
  pose proof (unconfigured_adapter_returns_absent (Sample.offline 1)
                "a prompt" (Some 7) world0) as [Ha Hb].
  split; [reflexivity | split; [reflexivity | split]].
  - exact (Ha eq_refl "1024x1024").
  - exact (Hb eq_refl 1024 1024).
Defined.

(** With no image credential at all, [generate_image] gives the absent result
    for every provider name: the only thing it does is draw a file name. *)
Lemma generate_image_unconfigured env prompt hint seed w :
  OPENAI_API_KEY env = "" ->
  STABILITY_API_KEY env = "" ->
  generate_image env prompt hint seed w = (Ok None, tick w).
Proof.
  intros Ha Hb. unfold generate_image.
  unfold bind at 1. unfold uuid4_hex_prefix at 1.
  set (provider := match hint with
                   | Some h => if str_truthy h then h else IMAGE_PROVIDER env
                   | None => IMAGE_PROVIDER env
                   end).
  destruct (String.eqb provider "openai").
  - unfold bind, generate_image_openai. rewrite Ha. reflexivity.
  - destruct (String.eqb provider "stability").
    + unfold bind, generate_image_stability. rewrite Hb. reflexivity.
    + reflexivity.
Qed.

(** ** The offline story *)

Lemma fold_append_map {A B} (f : A -> B) (xs : list A) (acc : list B) :
  fold_left (fun acc x => (acc ++ [f x])%list) xs acc = (acc ++ map f xs)%list.
Proof.
  revert acc. induction xs as [| x xs IH]; intros acc; simpl.
  - now rewrite app_nil_r.
  - rewrite IH, <- app_assoc. reflexivity.
Qed.

Lemma sample_pages_map name age theme n :
  sample_pages name age theme n
  = map (sample_page name age theme) (py_range 1 (n + 1)).
Proof. unfold sample_pages. now rewrite fold_append_map. Qed.

Lemma py_range_length lo hi :
  List.length (py_range lo hi) = Z.to_nat (hi - lo).
Proof. unfold py_range. now rewrite length_map, length_seq. Qed.

Lemma py_range_nth lo hi k :
  (k < Z.to_nat (hi - lo))%nat ->
  nth_error (py_range lo hi) k = Some (lo + Z.of_nat k).
Proof.
  intros Hk. unfold py_range.
  rewrite nth_error_map, nth_error_seq.
  destruct (Nat.ltb_spec k (Z.to_nat (hi - lo))); [reflexivity | lia].
Qed.

Lemma sample_pages_length name age theme n :
  List.length (sample_pages name age theme n) = Z.to_nat n.
Proof.
  rewrite sample_pages_map, length_map, py_range_length. f_equal. lia.
Qed.

Lemma sample_pages_nth name age theme n i :
  1 <= i <= n ->
  nth_error (sample_pages name age theme n) (Z.to_nat (i - 1))
  = Some (sample_page name age theme i).
Proof.
  intros Hi. rewrite sample_pages_map, nth_error_map.
  rewrite py_range_nth by lia.
  replace (1 + Z.of_nat (Z.to_nat (i - 1))) with i by lia.
  reflexivity.
Qed.

(** C2. With no text-provider credential, story generation does not fail and
    sends nothing: for a page count [n] between 1 and 20 it returns a story
    whose [pages] has exactly [n] entries; the entry at place [i] carries
    page number [i], a non-empty text and the generic image description. *)
Theorem offline_story_has_page_count env name age theme tone n w :
  OPENAI_API_KEY env = "" ->
  1 <= n <= 20 ->
  exists title synopsis ps,
    generate_story_with_openai env name age theme tone n w
    = (Ok (PDict [ ("title", PStr title); ("synopsis", PStr synopsis);
                   ("pages", PList ps) ]), w)
    /\ Z.of_nat (List.length ps) = n
    /\ forall i, 1 <= i <= n ->
         exists text,
           nth_error ps (Z.to_nat (i - 1))
           = Some (PDict [ ("page", PInt i); ("page_text", PStr text);
                           ("image_description",
                            PStr (generic_description name age theme)) ])
           /\ text <> "".
Proof.
  intros Hkey Hn.
  exists (name ++ " and the " ++ str_title env theme ++ " Adventure"),
         ("A short " ++ tone ++ " tale about " ++ name ++ "."),
         (sample_pages name age theme n).
  repeat split.
  - unfold generate_story_with_openai. rewrite Hkey. reflexivity.
  - rewrite sample_pages_length. lia.
  - intros i Hi.
    exists ("Page " ++ str_of_int i ++ ": " ++ name
            ++ " does something fun in the " ++ theme ++ ".").
    split.
    + rewrite sample_pages_nth by exact Hi. reflexivity.
    + discriminate.
Qed.

Lemma offline_story_has_page_count_witness :
  OPENAI_API_KEY (Sample.offline 1) = ""
  /\ 1 <= 4 <= 20
  /\ exists title synopsis ps,
       generate_story_with_openai (Sample.offline 1) "Mina" "6" "ocean"
         "playful" 4 world0
       = (Ok (PDict [ ("title", PStr title); ("synopsis", PStr synopsis);
                      ("pages", PList ps) ]), world0)
       /\ Z.of_nat (List.length ps) = 4
       /\ forall i, 1 <= i <= 4 ->
            exists text,
              nth_error ps (Z.to_nat (i - 1))
              = Some (PDict [ ("page", PInt i); ("page_text", PStr text);
                              ("image_description",
                               PStr (generic_description "Mina" "6" "ocean")) ])
              /\ text <> "".
Proof.
  split; [reflexivity | split; [lia |]].
  apply (offline_story_has_page_count (Sample.offline 1) "Mina" "6" "ocean"
           "playful" 4 world0); [reflexivity | lia].
Defined.

(** ** A response that does not parse *)

(** C4 (claim as stated: content that does not fit the Story schema makes
    story generation fail and the job abort). The content ["{}"] is JSON but
    has none of the fields of a Story; the program accepts it as the story
    and delivers a document, without any failure notice. *)
Lemma schema_violation_is_accepted :
  story_schema (PDict []) = false
  /\ fst (generate_story_with_openai (Sample.text_provider "{}") "Mina" "6"
            "ocean" "playful" 4 world0)
     = Ok (PDict [])
  /\ fst (create (Sample.text_provider "{}") Sample.mina_form world0)
     = Ok (SendFile Sample.pdf_stub "Mina_storybook.pdf" "application/pdf")
  /\ flashed (snd (create (Sample.text_provider "{}") Sample.mina_form world0))
     = [].
Proof. vm_compute. repeat split; reflexivity. Qed.

Lemma raise_for_status_ok r w :
  status_code r < 400 \/ 600 <= status_code r ->
  raise_for_status r w = (Ok tt, w).
Proof.
  intros H. unfold raise_for_status.
  destruct (Z.leb_spec 400 (status_code r)), (Z.ltb_spec (status_code r) 600);
    simpl; try reflexivity; lia.
Qed.

Lemma generate_story_unparsable env req r data t e w :
  OPENAI_API_KEY env <> "" ->
  http_post env
    (story_request env (child_name req) (age req) (theme req) (tone req)
       (pages req)) (clock w) = Ok r ->
  status_code r < 400 \/ 600 <= status_code r ->
  resp_json r = Ok data ->
  response_text data = Ok (PStr t) ->
  json_loads env t = Err e ->
  generate_story_with_openai env (child_name req) (age req) (theme req)
    (tone req) (pages req) w
  = (Err (Exn RuntimeError
            ("LLM returned unparsable JSON. Raw text:" ++ nl ++ t)),
     story_requested env req w).
Proof.
  intros Hkey Hpost Hstatus Hjson Htext Hloads.
  unfold generate_story_with_openai.
  assert (Hneg : negb (str_truthy (OPENAI_API_KEY env)) = false)
    by (destruct (OPENAI_API_KEY env); [congruence | reflexivity]).
  rewrite Hneg.
  erewrite bind_ok by (unfold requests_post; rewrite Hpost; reflexivity).
  erewrite bind_ok by (apply raise_for_status_ok; exact Hstatus).
  erewrite bind_ok by (unfold lift; rewrite Hjson; reflexivity).
  erewrite bind_ok by (unfold lift; rewrite Htext; reflexivity).
  unfold try_except, bind, lift, py_json_loads. rewrite Hloads.
  reflexivity.
Qed.

(** Content that [json.loads] accepts is the story, whatever its shape. *)
Lemma generate_story_parsable env req r data t story w :
  OPENAI_API_KEY env <> "" ->
  http_post env
    (story_request env (child_name req) (age req) (theme req) (tone req)
       (pages req)) (clock w) = Ok r ->
  status_code r < 400 \/ 600 <= status_code r ->
  resp_json r = Ok data ->
  response_text data = Ok (PStr t) ->
  json_loads env t = Ok story ->
  generate_story_with_openai env (child_name req) (age req) (theme req)
    (tone req) (pages req) w
  = (Ok story, story_requested env req w).
Proof.
  intros Hkey Hpost Hstatus Hjson Htext Hloads.
  unfold generate_story_with_openai.
  assert (Hneg : negb (str_truthy (OPENAI_API_KEY env)) = false)
    by (destruct (OPENAI_API_KEY env); [congruence | reflexivity]).
  rewrite Hneg.
  erewrite bind_ok by (unfold requests_post; rewrite Hpost; reflexivity).
  erewrite bind_ok by (apply raise_for_status_ok; exact Hstatus).
  erewrite bind_ok by (unfold lift; rewrite Hjson; reflexivity).
  erewrite bind_ok by (unfold lift; rewrite Htext; reflexivity).
  unfold try_except, bind, lift, py_json_loads. rewrite Hloads.
  reflexivity.
Qed.

(** C4 (amended). Let the text provider return the text [t] as content.
    When [json.loads] rejects [t], story generation fails with an error whose
    message ends with the raw text [t], and the job aborts: the failure
    notice, which carries the raw text, is flashed, the reply is a redirect
    to the form, and nothing is rendered or stored. When [json.loads] accepts
    [t], the parsed value is returned as the story, whatever its shape. *)
Theorem unparsable_story_aborts_job env form req r data t w :
  read_form form = Ok req ->
  OPENAI_API_KEY env <> "" ->
  http_post env
    (story_request env (child_name req) (age req) (theme req) (tone req)
       (pages req)) (clock w) = Ok r ->
  status_code r < 400 \/ 600 <= status_code r ->
  resp_json r = Ok data ->
  response_text data = Ok (PStr t) ->
  let raw := "LLM returned unparsable JSON. Raw text:" ++ nl ++ t in
  (forall e,
     json_loads env t = Err e ->
     generate_story_with_openai env (child_name req) (age req) (theme req)
       (tone req) (pages req) w
     = (Err (Exn RuntimeError raw), story_requested env req w)
     /\ create env form w
        = (Ok (Redirect "/"),
           {| clock := S (clock w);
              sent := sent (story_requested env req w);
              files := files w;
              flashed := ("Error generating story: " ++ raw) :: flashed w |}))
  /\ (forall story,
        json_loads env t = Ok story ->
        generate_story_with_openai env (child_name req) (age req) (theme req)
          (tone req) (pages req) w
        = (Ok story, story_requested env req w)).
Proof.
  intros Hform Hkey Hpost Hstatus Hjson Htext raw. split.
  - intros e Hloads.
    pose proof (generate_story_unparsable env req r data t e w
                  Hkey Hpost Hstatus Hjson Htext Hloads) as Hgen.
    split; [exact Hgen |].
    unfold create.
    erewrite bind_ok by (unfold lift; rewrite Hform; reflexivity).
    erewrite bind_ok by (unfold attempt; rewrite Hgen; reflexivity).
    reflexivity.
  - intros story Hloads.
    exact (generate_story_parsable env req r data t story w
             Hkey Hpost Hstatus Hjson Htext Hloads).
Qed.

Lemma unparsable_story_aborts_job_witness :
  let env := Sample.text_provider "Once upon a time" in
  let req := {| child_name := "Mina"; age := "6"; theme := "ocean";
                tone := "playful"; pages := 4 |} in
  let raw :=
    "LLM returned unparsable JSON. Raw text:" ++ nl ++ "Once upon a time" in
  read_form Sample.mina_form = Ok req
  /\ OPENAI_API_KEY env <> ""
  /\ json_loads env "Once upon a time"
     = Err (Exn JSONDecodeError "Expecting value")
  /\ generate_story_with_openai env (child_name req) (age req) (theme req)
       (tone req) (pages req) world0
     = (Err (Exn RuntimeError raw), story_requested env req world0)
  /\ create env Sample.mina_form world0
     = (Ok (Redirect "/"),
        {| clock := 1;
           sent := sent (story_requested env req world0);
           files := [];
           flashed := ["Error generating story: " ++ raw] |}).
Proof.
  split; [reflexivity | split; [discriminate | split; [reflexivity |]]].
  exact (proj1 (unparsable_story_aborts_job
                  (Sample.text_provider "Once upon a time") Sample.mina_form
                  {| child_name := "Mina"; age := "6"; theme := "ocean";
                     tone := "playful"; pages := 4 |}
                  (Sample.completion "Once upon a time")
                  (PDict [("choices",
                           PList [PDict [("message",
                                          PDict [("content",
                                                  PStr "Once upon a time")])]])])
                  "Once upon a time" world0
                  eq_refl
                  ltac:(discriminate)
                  eq_refl
                  ltac:(left; reflexivity)
                  eq_refl eq_refl)
               (Exn JSONDecodeError "Expecting value") eq_refl).
Defined.

(** ** The assembled document *)

Lemma page_sections_spec ps :
  forall images,
  List.length images = List.length ps ->
  List.length (page_sections ps images) = List.length ps
  /\ map sec_text (page_sections ps images)
     = map (fun p => template_field p "page_text") ps
  /\ map sec_image (page_sections ps images) = images.
Proof.
  induction ps as [| p ps IH]; intros [| i images] Hlen; simpl in *;
    try discriminate; [repeat split |].
  destruct (IH images) as (Hl & Ht & Hi); [congruence |].
  repeat split; congruence.
Qed.

(** The rendering of the template, for a story and a sequence of results of
    the same length as its pages. *)
Lemma document_has_one_section_per_page story images name :
  List.length images = List.length (template_pages story) ->
  let doc := render_story_template story images name in
  List.length (doc_sections doc) = List.length (template_pages story)
  /\ map sec_text (doc_sections doc)
     = map (fun p => template_field p "page_text") (template_pages story)
  /\ map sec_image (doc_sections doc) = images.
Proof.
  intros Hlen doc. subst doc. simpl.
  apply page_sections_spec. exact Hlen.
Qed.

Lemma document_has_one_section_per_page_witness :
  let story := sample_story (Sample.offline 1) "Mina" "6" "ocean" "playful" 2 in
  let images := [Some "output/img_0.png"; None] in
  List.length images = List.length (template_pages story)
  /\ map sec_text (doc_sections (render_story_template story images "Mina"))
     = [ Some (PStr "Page 1: Mina does something fun in the ocean.");
         Some (PStr "Page 2: Mina does something fun in the ocean.") ]
  /\ map sec_image (doc_sections (render_story_template story images "Mina"))
     = images.
Proof.
  pose proof (document_has_one_section_per_page
                (sample_story (Sample.offline 1) "Mina" "6" "ocean" "playful" 2)
                [Some "output/img_0.png"; None] "Mina" eq_refl)
    as (_ & Htexts & Himages).
  split; [reflexivity | split].
  - rewrite Htexts. reflexivity.
  - exact Himages.
Defined.

Lemma template_pages_of_dict entries ps :
  dict_get entries "pages" (PList []) = PList ps ->
  template_pages (PDict entries) = ps.
Proof.
  unfold dict_get, template_pages, template_field.
  destruct (assoc_lookup "pages" entries) as [v |]; intros H.
  - subst v. reflexivity.
  - congruence.
Qed.

(** In a job, the results handed to the template match the pages: the
    document built from a story of page records and from the results of its
    illustration has one section per page. *)
Lemma illustrated_document_sections env name age entries ps w imgs w' :
  dict_get entries "pages" (PList []) = PList ps ->
  Forall is_page ps ->
  illustrate env name age (PDict entries) w = (Ok imgs, w') ->
  let doc := render_story_template (PDict entries) imgs name in
  List.length (doc_sections doc) = List.length ps
  /\ map sec_image (doc_sections doc) = imgs.
Proof.
  intros Hpages Hps Hrun doc. subst doc. simpl.
  rewrite (template_pages_of_dict entries ps Hpages).
  destruct (for_each_illustrated env name age ps Hps [] w)
    as (imgs' & w'' & Hloop & Hrel).
  assert (Himgs : imgs = imgs').
  { unfold illustrate in Hrun. simpl in Hrun. unfold bind, lift in Hrun.
    rewrite Hpages in Hrun. simpl in Hrun. rewrite Hloop in Hrun.
    inversion Hrun. reflexivity. }
  subst imgs'.
  destruct (page_sections_spec ps imgs) as (Hl & _ & Hi).
  - eapply illustrated_length; eassumption.
  - split; assumption.
Qed.

(** ** Storage failures *)

(** C7 (claim as stated: a failed write never prevents the document bytes
    from being returned). With a storage that refuses writes, and a renderer
    that would deliver its bytes, assembly raises the storage error and
    returns no bytes; so does the whole job. *)
Lemma storage_failure_aborts_assembly :
  let env := Sample.offline_storage_down in
  let story := sample_story env "Mina" "6" "ocean" "playful" 4 in
  write_pdf env (render_story_template story [None; None; None; None] "Mina") 2
  = Ok Sample.pdf_stub
  /\ fst (assemble env "Mina" story [None; None; None; None] world0)
     = Err (Exn OSError "No space left on device")
  /\ fst (create env Sample.mina_form world0)
     = Err (Exn OSError "No space left on device").
Proof. vm_compute. repeat split; reflexivity. Qed.

Lemma write_file_ok env path data w :
  fs_write env path (clock w) = None ->
  write_file env path data w = (Ok tt, stored path data w).
Proof. intros H. unfold write_file. rewrite H. reflexivity. Qed.

Lemma write_file_err env path data w e :
  fs_write env path (clock w) = Some e ->
  write_file env path data w = (Err e, tick w).
Proof. intros H. unfold write_file. rewrite H. reflexivity. Qed.

(** C7 (amended). Let [b] be the bytes the renderer delivers. When both
    writes succeed, assembly returns [b] as the attachment and has stored the
    intermediate document and [b]. When the write of the intermediate
    document fails, or the write of the final artifact fails, assembly raises
    that storage error and no bytes are returned. *)
Theorem assemble_depends_on_storage env name story images w b :
  let doc := render_story_template story images name in
  let html_file :=
    path_join OUTPUT_DIR
      ("story_" ++ substring 0 8 (uuid4_hex env (clock w)) ++ ".html") in
  let pdf_path :=
    path_join OUTPUT_DIR
      (name ++ "_storybook_"
       ++ substring 0 8 (uuid4_hex env (S (S (S (clock w))))) ++ ".pdf") in
  write_pdf env doc (S (S (clock w))) = Ok b ->
  (fs_write env html_file (S (clock w)) = None ->
   fs_write env pdf_path (S (S (S (S (clock w))))) = None ->
   exists w',
     assemble env name story images w
     = (Ok (SendFile b (name ++ "_storybook.pdf") "application/pdf"), w')
     /\ files w' = (pdf_path, FBytes b) :: (html_file, FText doc) :: files w)
  /\ (forall e,
        fs_write env html_file (S (clock w)) = Some e ->
        exists w',
          assemble env name story images w = (Err e, w')
          /\ files w' = files w)
  /\ (forall e,
        fs_write env html_file (S (clock w)) = None ->
        fs_write env pdf_path (S (S (S (S (clock w))))) = Some e ->
        exists w',
          assemble env name story images w = (Err e, w')
          /\ files w' = (html_file, FText doc) :: files w).
Proof.
  intros doc html_file pdf_path Hpdf.
  assert (Hrender :
            html_write_pdf env doc (stored html_file (FText doc) (tick w))
            = (Ok b, tick (stored html_file (FText doc) (tick w))))
    by (unfold html_write_pdf; cbn [clock stored tick]; rewrite Hpdf;
        reflexivity).
  unfold assemble. fold doc.
  erewrite bind_ok by reflexivity. fold html_file.
  repeat split.
  - intros Hh Hp.
    erewrite bind_ok by (apply write_file_ok; exact Hh).
    erewrite bind_ok by exact Hrender.
    erewrite bind_ok by reflexivity. fold pdf_path.
    erewrite bind_ok by (apply write_file_ok; exact Hp).
    eexists. split; reflexivity.
  - intros e Hh.
    erewrite bind_err by (apply write_file_err; exact Hh).
    eexists. split; reflexivity.
  - intros e Hh Hp.
    erewrite bind_ok by (apply write_file_ok; exact Hh).
    erewrite bind_ok by exact Hrender.
    erewrite bind_ok by reflexivity. fold pdf_path.
    erewrite bind_err by (apply write_file_err; exact Hp).
    eexists. split; reflexivity.
Qed.

Lemma assemble_depends_on_storage_witness :
  let story := sample_story (Sample.offline 1) "Mina" "6" "ocean" "playful" 1 in
  (exists w',
     assemble (Sample.offline 1) "Mina" story [None] world0
     = (Ok (SendFile Sample.pdf_stub "Mina_storybook.pdf" "application/pdf"),
        w')
     /\ files w'
        = [ ("output/Mina_storybook_3a0b1c2d.pdf", FBytes Sample.pdf_stub);
            ("output/story_0a0b1c2d.html",
             FText (render_story_template story [None] "Mina")) ])
  /\ (exists w',
        assemble Sample.offline_storage_down "Mina" story [None] world0
        = (Err (Exn OSError "No space left on device"), w')
        /\ files w' = []).
Proof.
  split.
  - exact (proj1 (assemble_depends_on_storage (Sample.offline 1) "Mina"
                    (sample_story (Sample.offline 1) "Mina" "6" "ocean"
                       "playful" 1)
                    [None] world0 Sample.pdf_stub eq_refl)
                 eq_refl eq_refl).
  - exact (proj1 (proj2 (assemble_depends_on_storage
                           Sample.offline_storage_down "Mina"
                           (sample_story (Sample.offline 1) "Mina" "6" "ocean"
                              "playful" 1)
                           [None] world0 Sample.pdf_stub eq_refl))
                 (Exn OSError "No space left on device") eq_refl).
Defined.

(** ** Reading the form *)

Lemma scan_digits_decimal d :
  forall acc count,
    scan_digits (NilEmpty.string_of_uint d) acc count false
    = Some (uint_value d acc, (count + Decimal.nb_digits d)%nat, "").
Proof.
  induction d; intros acc count; cbn [NilEmpty.string_of_uint uint_value
                                       Decimal.nb_digits];
    [rewrite Nat.add_0_r; reflexivity | ..];
    (etransitivity; [apply IHd |]; rewrite Nat.add_succ_r; reflexivity).
Qed.

Lemma uint_value_acc d :
  forall acc, uint_value d (Zpos acc) = Zpos (Pos.of_uint_acc d acc).
Proof.
  induction d; intros acc; cbn [uint_value Pos.of_uint_acc];
    try reflexivity; rewrite <- IHd; f_equal; lia.
Qed.

Lemma uint_value_of_uint d : uint_value d 0 = Z.of_N (Pos.of_uint d).
Proof.
  induction d; simpl; try reflexivity; try exact IHd;
    apply uint_value_acc.
Qed.

Lemma uint_value_to_uint p : uint_value (Pos.to_uint p) 0 = Zpos p.
Proof.
  rewrite uint_value_of_uint, Unsigned.of_to. reflexivity.
Qed.

Lemma is_ascii_decimal d : is_ascii (NilEmpty.string_of_uint d) = true.
Proof. induction d; simpl; try reflexivity; exact IHd. Qed.

(** A number is at least the weight of its leading digits. *)
Lemma uint_value_lower d :
  forall acc,
    0 <= acc ->
    acc * 10 ^ Z.of_nat (Decimal.nb_digits d) <= uint_value d acc.
Proof.
  induction d; intros acc Hacc; cbn [uint_value Decimal.nb_digits];
    [rewrite Z.pow_0_r; lia | ..];
    (rewrite Nat2Z.inj_succ, Z.pow_succ_r by lia;
     etransitivity; [| apply IHd; lia];
     pose proof (Z.pow_nonneg 10 (Z.of_nat (Decimal.nb_digits d))
                   ltac:(lia));
     nia).
Qed.

Lemma to_uint_not_D0 p d : Pos.to_uint p <> Decimal.D0 d.
Proof.
  intros H.
  assert (Hn : Decimal.unorm (Pos.to_uint p) = Pos.to_uint p).
  { rewrite <- (Unsigned.to_of (Pos.to_uint p)), Unsigned.of_to.
    reflexivity. }
  rewrite H in Hn. change (Decimal.unorm (Decimal.D0 d)) with (Decimal.unorm d) in Hn.
  destruct d as [| d | d | d | d | d | d | d | d | d | d];
    try (pose proof (Unsigned.to_uint_nonzero p) as Hz; rewrite H in Hz;
         now apply Hz);
    match type of Hn with
    | Decimal.unorm ?x = _ =>
        pose proof (DecimalFacts.nb_digits_unorm x ltac:(discriminate)) as Hlen;
        rewrite Hn in Hlen; cbn [Decimal.nb_digits] in Hlen; lia
    end.
Qed.

Lemma nb_digits_bound p k :
  Zpos p < 10 ^ Z.of_nat k -> (Decimal.nb_digits (Pos.to_uint p) <= k)%nat.
Proof.
  intros Hlt.
  pose proof (uint_value_to_uint p) as Hv.
  pose proof (to_uint_not_D0 p) as Hlead.
  pose proof (Unsigned.to_uint_nonnil p) as Hnil.
  destruct (Pos.to_uint p) as [| d | d | d | d | d | d | d | d | d | d] eqn:Hd;
    [congruence | exfalso; eapply Hlead; reflexivity | ..];
    cbn [uint_value Decimal.nb_digits] in *;
    match type of Hv with
    | uint_value d ?a = _ =>
        pose proof (uint_value_lower d a ltac:(lia)) as Hlow
    end;
    destruct (Nat.le_gt_cases (S (Decimal.nb_digits d)) k) as [Hle | Hgt];
    try exact Hle; exfalso;
    assert (Hpow : 10 ^ Z.of_nat k <= 10 ^ Z.of_nat (Decimal.nb_digits d))
      by (apply Z.pow_le_mono_r; lia);
    pose proof (Z.pow_pos_nonneg 10 (Z.of_nat (Decimal.nb_digits d))
                  ltac:(lia) ltac:(lia));
    nia.
Qed.

Lemma skip_spaces_head c s :
  is_space c = false -> skip_spaces (String c s) = String c s.
Proof. intros H. simpl. rewrite H. reflexivity. Qed.

Lemma int_of_decimal_digits d :
  d <> Decimal.Nil ->
  (Decimal.nb_digits d <= max_str_digits)%nat ->
  forall negative,
    int_of_str ((if negative : bool then "-" else "")
                ++ NilEmpty.string_of_uint d)
    = Ok (if negative then - uint_value d 0 else uint_value d 0).
Proof.
  intros Hnil Hlen negative. unfold int_of_str, transformed.
  assert (Hascii : is_ascii ((if negative then "-" else "")
                             ++ NilEmpty.string_of_uint d) = true)
    by (destruct negative; simpl; apply is_ascii_decimal).
  rewrite Hascii.
  assert (Hlimit : (max_str_digits <? Decimal.nb_digits d)%nat = false)
    by (apply Nat.ltb_ge; exact Hlen).
  pose proof (scan_digits_decimal d 0 0) as Hscan. cbn [Nat.add] in Hscan.
  destruct d as [| d | d | d | d | d | d | d | d | d | d];
    [congruence | ..];
    destruct negative;
    cbn [append NilEmpty.string_of_uint] in *;
    rewrite skip_spaces_head by reflexivity;
    cbv beta iota;
    (rewrite Hscan; rewrite Hlimit; reflexivity).
Qed.

(** [int] reads back what [str] prints for an integer of at most 4300
    digits. *)
Lemma int_of_str_of_int n :
  Z.abs n < 10 ^ 4300 -> int_of_str (str_of_int n) = Ok n.
Proof.
  intros Hn. destruct n as [| p | p].
  - reflexivity.
  - pose proof (int_of_decimal_digits (Pos.to_uint p)
                  (Unsigned.to_uint_nonnil p)
                  (nb_digits_bound p 4300 Hn) false) as H.
    rewrite uint_value_to_uint in H. rewrite <- H.
    unfold str_of_int. simpl Z.to_int.
    unfold NilZero.string_of_int, NilZero.string_of_uint.
    pose proof (Unsigned.to_uint_nonnil p).
    destruct (Pos.to_uint p); [congruence | reflexivity ..].
  - pose proof (int_of_decimal_digits (Pos.to_uint p)
                  (Unsigned.to_uint_nonnil p)
                  (nb_digits_bound p 4300 Hn) true) as H.
    rewrite uint_value_to_uint in H.
    change (Z.neg p) with (- Z.pos p) at 2. rewrite <- H.
    unfold str_of_int. simpl Z.to_int.
    unfold NilZero.string_of_int, NilZero.string_of_uint.
    pose proof (Unsigned.to_uint_nonnil p).
    destruct (Pos.to_uint p); [congruence | reflexivity ..].
Qed.

(** Digits and white space outside ASCII are read as [int] reads them, and a
    text of more than 4300 digits is refused. *)
Example int_of_str_beyond_ascii :
  int_of_str (utf8_of 1635) = Ok 3
  /\ int_of_str (utf8_of 160 ++ "5") = Ok 5
  /\ int_of_str (utf8_of 65297 ++ utf8_of 65298 ++ utf8_of 12288) = Ok 12
  /\ option_map exn_cls
       (match int_of_str (string_of_codes (repeat 48 4301)) with
        | inl e => Some e
        | inr _ => None
        end) = Some ValueError
  /\ int_of_str (string_of_codes (repeat 48 4300)) = Ok 0.
Proof. vm_compute. repeat split; reflexivity. Qed.

(** C8 (claim as stated: the page count is coerced to an integer [>= 1] for
    any submitted value). A submitted ["0"] is read as the page count [0], a
    submitted ["-3"] as [-3], and a submitted ["many"] makes the reading fail:
    there is no request at all. *)
Lemma page_count_is_not_made_positive :
  read_form [("name", "Mina"); ("pages", "0")]
  = Ok {| child_name := "Mina"; age := "5"; theme := "jungle";
          tone := "playful"; pages := 0 |}
  /\ ~ (1 <= 0)
  /\ option_map pages
       (match read_form [("pages", "-3")] with
        | inr req => Some req
        | inl _ => None
        end) = Some (-3)
  /\ read_form [("name", "Mina"); ("pages", "many")]
     = Err (Exn ValueError "invalid literal for int() with base 10: 'many'").
Proof. repeat split; try reflexivity. lia. Qed.

(** C8 (amended). Every missing text field is replaced by its default
    ([Child], [5], [jungle], [playful]) and a missing page count by [6]. A
    submitted page count is converted by [int]: when [int] accepts it, the
    request carries that integer, whatever its sign (so the decimal text of
    any integer [n] of at most 4300 digits gives the page count [n]); when
    [int] rejects it, reading the form fails with that error and there is no
    request. *)
Theorem read_form_defaults_and_page_count form :
  let field key default :=
    match assoc_lookup key form with Some v => v | None => default end in
  let request n :=
    {| child_name := field "name" "Child"; age := field "age" "5";
       theme := field "theme" "jungle"; tone := field "tone" "playful";
       pages := n |} in
  (assoc_lookup "pages" form = None -> read_form form = Ok (request 6))
  /\ (forall s n,
        assoc_lookup "pages" form = Some s -> int_of_str s = Ok n ->
        read_form form = Ok (request n))
  /\ (forall n,
        Z.abs n < 10 ^ 4300 ->
        assoc_lookup "pages" form = Some (str_of_int n) ->
        read_form form = Ok (request n))
  /\ (forall s e,
        assoc_lookup "pages" form = Some s -> int_of_str s = Err e ->
        read_form form = Err e).
Proof.
  intros field request. unfold read_form, form_pages, form_get.
  repeat split.
  - intros H. rewrite H. reflexivity.
  - intros s n H Hn. rewrite H, Hn. reflexivity.
  - intros n Hn H. rewrite H, (int_of_str_of_int n Hn). reflexivity.
  - intros s e H He. rewrite H, He. reflexivity.
Qed.

Lemma read_form_defaults_and_page_count_witness :
  read_form [("theme", "ocean")]
  = Ok {| child_name := "Child"; age := "5"; theme := "ocean";
          tone := "playful"; pages := 6 |}
  /\ read_form [("name", "Mina"); ("pages", " -12 ")]
     = Ok {| child_name := "Mina"; age := "5"; theme := "jungle";
             tone := "playful"; pages := -12 |}
  /\ (Z.abs (-3) < 10 ^ 4300
      /\ read_form [("pages", str_of_int (-3))]
         = Ok {| child_name := "Child"; age := "5"; theme := "jungle";
                 tone := "playful"; pages := -3 |})
  /\ read_form [("pages", "4.5")]
     = Err (Exn ValueError "invalid literal for int() with base 10: '4.5'").
Proof.
  split; [| split; [| split]].
  - exact (proj1 (read_form_defaults_and_page_count [("theme", "ocean")])
                 eq_refl).
  - exact (proj1 (proj2 (read_form_defaults_and_page_count
                           [("name", "Mina"); ("pages", " -12 ")]))
                 " -12 " (-12) eq_refl eq_refl).
  - split; [reflexivity |].
    exact (proj1 (proj2 (proj2 (read_form_defaults_and_page_count
                                  [("pages", str_of_int (-3))])))
                 (-3) eq_refl eq_refl).
  - exact (proj2 (proj2 (proj2 (read_form_defaults_and_page_count
                                  [("pages", "4.5")])))
                 "4.5" _ eq_refl eq_refl).
Defined.

(** ** Seeds *)

(** A seed, when one is derived, is a 32-bit unsigned integer. *)
Lemma derive_seed_range env name page s :
  derive_seed env name page = Ok s -> 0 <= s < 2 ^ 32.
Proof.
  unfold derive_seed, py_hash.
  destruct (hashable _); intros H; inversion H.
  apply Z.mod_pos_bound. reflexivity.
Qed.

(** The seed of an integer page number is derived without raising. *)
Lemma derive_seed_int env name n :
  derive_seed env name (PInt n)
  = Ok (hash_value env (PTuple [PStr name; PInt n]) mod 2 ^ 32).
Proof. reflexivity. Qed.

(** C3. The seed of page 1 of the subject [Mina], in a process started with
    hash seed 1 and in a process started with hash seed 2: the two processes
    derive different seeds for the same (subject, page number) pair. *)
Theorem derive_seed_varies_with_hash_seed :
  derive_seed (Sample.offline 1) "Mina" (PInt 1) = Ok 4093391078
  /\ derive_seed (Sample.offline 2) "Mina" (PInt 1) = Ok 234749483
  /\ derive_seed (Sample.offline 1) "Mina" (PInt 1)
     <> derive_seed (Sample.offline 2) "Mina" (PInt 1).
Proof.
  assert (H1 : derive_seed (Sample.offline 1) "Mina" (PInt 1) = Ok 4093391078)
    by (vm_compute; reflexivity).
  assert (H2 : derive_seed (Sample.offline 2) "Mina" (PInt 1) = Ok 234749483)
    by (vm_compute; reflexivity).
  repeat split; try assumption.
  rewrite H1, H2. discriminate.
Qed.

(** * Further properties *)

(** ** Computations that leave the world alone *)

Lemma key_configured key :
  key <> "" -> negb (str_truthy key) = false.
Proof. destruct key; [congruence | reflexivity]. Qed.

Lemma ret_silent {A} (a : A) : silent (ret a).
Proof. intros w. reflexivity. Qed.

Lemma raise_silent {A} (e : exn) : silent (@raise A e).
Proof. intros w. reflexivity. Qed.

Lemma lift_silent {A} (r : result A) : silent (lift r).
Proof. intros w. reflexivity. Qed.

Lemma bind_silent {A B} (m : M A) (k : A -> M B) :
  silent m -> (forall a, silent (k a)) -> silent (bind m k).
Proof.
  intros Hm Hk w. unfold bind. specialize (Hm w).
  destruct (m w) as [[e | a] w1]; simpl in *; subst w1.
  - reflexivity.
  - apply Hk.
Qed.

Lemma try_except_silent {A} (m : M A) (h : exn -> M A) :
  silent m -> (forall e, silent (h e)) -> silent (try_except m h).
Proof.
  intros Hm Hh w. unfold try_except. specialize (Hm w).
  destruct (m w) as [[e | a] w1]; simpl in *; subst w1.
  - apply Hh.
  - reflexivity.
Qed.

Lemma raise_for_status_silent r : silent (raise_for_status r).
Proof.
  unfold raise_for_status.
  destruct ((400 <=? status_code r) && (status_code r <? 600));
    [apply raise_silent | apply ret_silent].
Qed.

(** After a first step, a silent rest leaves the world of the first step. *)
Lemma bind_world {A B} (m : M A) (k : A -> M B) w :
  (forall a, silent (k a)) -> snd (bind m k w) = snd (m w).
Proof.
  intros Hk. unfold bind. destruct (m w) as [[e | a] w1]; simpl.
  - reflexivity.
  - apply Hk.
Qed.

Create HintDb silent.

#[local] Hint Resolve ret_silent raise_silent lift_silent
  raise_for_status_silent : silent.

Ltac silence :=
  repeat first
    [ apply bind_silent; [| intros ?]
    | apply try_except_silent; [| intros ?]
    | solve [auto with silent] ].

(** ** Worlds left by the adapters *)

Lemma generate_image_openai_world env prompt size seed w :
  OPENAI_API_KEY env <> "" ->
  snd (generate_image_openai env prompt size seed w)
  = posted (openai_image_request env prompt size seed) w.
Proof.
  intros Hkey. unfold generate_image_openai.
  rewrite (key_configured _ Hkey).
  rewrite bind_world by (intros r; silence).
  reflexivity.
Qed.

Lemma generate_image_stability_world env prompt width height seed w :
  STABILITY_API_KEY env <> "" ->
  snd (generate_image_stability env prompt width height seed w)
  = posted (stability_image_request env prompt width height seed) w.
Proof.
  intros Hkey. unfold generate_image_stability.
  rewrite (key_configured _ Hkey).
  rewrite bind_world by (intros r; silence).
  reflexivity.
Qed.

(** ** [generate_image], step by step *)

Lemma generate_image_eq env prompt hint seed w :
  generate_image env prompt hint seed w
  = match dispatch_image env (chosen_provider env hint) prompt seed (tick w) with
    | (inl e, w1) => (inl e, w1)
    | (inr None, w1) => (Ok None, w1)
    | (inr (Some b), w1) =>
        if bytes_truthy b then
          match fs_write env (image_path env w) (clock w1) with
          | Some e => (Err e, tick w1)
          | None =>
              (Ok (Some (image_path env w)),
               stored (image_path env w) (FBytes b) w1)
          end
        else (Ok None, w1)
    end.
Proof.
  cbv beta iota zeta delta [generate_image dispatch_image chosen_provider
                            image_path bind uuid4_hex_prefix write_file ret
                            Ok Err].
  match goal with
  | |- context [(if String.eqb ?p "openai" then ?f else ?g) (tick w)] =>
      destruct ((if String.eqb p "openai" then f else g) (tick w))
        as [[e | [b |]] w1]
  end; try reflexivity.
  destruct (bytes_truthy b); [| reflexivity].
  destruct (fs_write env _ (clock w1)); reflexivity.
Qed.

Lemma dispatch_image_frame env provider prompt seed w :
  one_request_at_most w (snd (dispatch_image env provider prompt seed w)).
Proof.
  unfold dispatch_image, one_request_at_most.
  destruct (String.eqb provider "openai").
  - destruct (string_dec (OPENAI_API_KEY env) "") as [Hk | Hk].
    + unfold generate_image_openai. rewrite Hk. simpl. auto.
    + rewrite generate_image_openai_world by exact Hk. simpl. eauto.
  - destruct (String.eqb provider "stability").
    + destruct (string_dec (STABILITY_API_KEY env) "") as [Hk | Hk].
      * unfold generate_image_stability. rewrite Hk. simpl. auto.
      * rewrite generate_image_stability_world by exact Hk. simpl. eauto.
    + simpl. auto.
Qed.

Lemma raise_for_status_err r w :
  400 <= status_code r < 600 ->
  raise_for_status r w
  = (Err (Exn HTTPError ("HTTP error " ++ str_of_int (status_code r))), w).
Proof.
  intros H. unfold raise_for_status.
  destruct (Z.leb_spec 400 (status_code r)), (Z.ltb_spec (status_code r) 600);
    simpl; try reflexivity; lia.
Qed.

Lemma generate_image_openai_result env prompt size seed w r j :
  OPENAI_API_KEY env <> "" ->
  http_post env (openai_image_request env prompt size seed) (clock w) = Ok r ->
  status_ok r ->
  resp_json r = Ok j ->
  fst (generate_image_openai env prompt size seed w)
  = decoded env (openai_b64 j).
Proof.
  intros Hkey Hpost Hstatus Hjson. unfold generate_image_openai.
  rewrite (key_configured _ Hkey).
  erewrite bind_ok
    by (unfold requests_post; fold (openai_image_request env prompt size seed);
        rewrite Hpost; reflexivity).
  erewrite bind_ok by (apply raise_for_status_ok; exact Hstatus).
  erewrite bind_ok by (unfold lift; rewrite Hjson; reflexivity).
  unfold decoded, openai_b64, bind, lift, ret.
  destruct (getitem_str j "data") as [e | data]; [reflexivity |].
  destruct (getitem_0 data) as [e | first]; [reflexivity |].
  destruct (getitem_str first "b64_json") as [e | b64]; [reflexivity |].
  destruct (py_b64decode env b64); reflexivity.
Qed.

Lemma generate_image_stability_result env prompt width height seed w r j :
  STABILITY_API_KEY env <> "" ->
  http_post env (stability_image_request env prompt width height seed)
    (clock w) = Ok r ->
  status_ok r ->
  resp_json r = Ok j ->
  fst (generate_image_stability env prompt width height seed w)
  = decoded env (stability_b64 j).
Proof.
  intros Hkey Hpost Hstatus Hjson. unfold generate_image_stability.
  rewrite (key_configured _ Hkey).
  erewrite bind_ok
    by (unfold requests_post;
        fold (stability_image_request env prompt width height seed);
        rewrite Hpost; reflexivity).
  erewrite bind_ok by (apply raise_for_status_ok; exact Hstatus).
  erewrite bind_ok by (unfold lift; rewrite Hjson; reflexivity).
  unfold decoded, stability_b64, bind, lift, ret.
  destruct (getitem_str j "artifacts") as [e | data]; [reflexivity |].
  destruct (getitem_0 data) as [e | first]; [reflexivity |].
  destruct (getitem_str first "base64") as [e | b64]; [reflexivity |].
  destruct (py_b64decode env b64); reflexivity.
Qed.

(** What the dispatcher gives when the provider is [openai], configured, and
    answers [r] with a passing status and the body [j]. *)
Lemma dispatch_openai env prompt seed w r j :
  OPENAI_API_KEY env <> "" ->
  http_post env (openai_image_request env prompt "1024x1024" seed) (clock w)
  = Ok r ->
  status_ok r ->
  resp_json r = Ok j ->
  dispatch_image env "openai" prompt seed w
  = (decoded env (openai_b64 j),
     posted (openai_image_request env prompt "1024x1024" seed) w).
Proof.
  intros Hkey Hpost Hstatus Hjson. unfold dispatch_image. simpl.
  rewrite (surjective_pairing (generate_image_openai _ _ _ _ _)).
  rewrite (generate_image_openai_result env prompt "1024x1024" seed w r j)
    by assumption.
  rewrite generate_image_openai_world by assumption.
  reflexivity.
Qed.

Lemma dispatch_stability env prompt seed w r j :
  STABILITY_API_KEY env <> "" ->
  http_post env (stability_image_request env prompt 1024 1024 seed) (clock w)
  = Ok r ->
  status_ok r ->
  resp_json r = Ok j ->
  dispatch_image env "stability" prompt seed w
  = (decoded env (stability_b64 j),
     posted (stability_image_request env prompt 1024 1024 seed) w).
Proof.
  intros Hkey Hpost Hstatus Hjson. unfold dispatch_image. simpl.
  rewrite (surjective_pairing (generate_image_stability _ _ _ _ _ _)).
  rewrite (generate_image_stability_result env prompt 1024 1024 seed w r j)
    by assumption.
  rewrite generate_image_stability_world by assumption.
  reflexivity.
Qed.

Lemma generate_image_openai_http_error env prompt size seed w r :
  OPENAI_API_KEY env <> "" ->
  http_post env (openai_image_request env prompt size seed) (clock w) = Ok r ->
  400 <= status_code r < 600 ->
  fst (generate_image_openai env prompt size seed w)
  = Err (Exn HTTPError ("HTTP error " ++ str_of_int (status_code r))).
Proof.
  intros Hkey Hpost Hstatus. unfold generate_image_openai.
  rewrite (key_configured _ Hkey).
  erewrite bind_ok
    by (unfold requests_post; fold (openai_image_request env prompt size seed);
        rewrite Hpost; reflexivity).
  erewrite bind_err by (apply raise_for_status_err; exact Hstatus).
  reflexivity.
Qed.

Lemma generate_image_stability_http_error env prompt width height seed w r :
  STABILITY_API_KEY env <> "" ->
  http_post env (stability_image_request env prompt width height seed)
    (clock w) = Ok r ->
  400 <= status_code r < 600 ->
  fst (generate_image_stability env prompt width height seed w)
  = Err (Exn HTTPError ("HTTP error " ++ str_of_int (status_code r))).
Proof.
  intros Hkey Hpost Hstatus. unfold generate_image_stability.
  rewrite (key_configured _ Hkey).
  erewrite bind_ok
    by (unfold requests_post;
        fold (stability_image_request env prompt width height seed);
        rewrite Hpost; reflexivity).
  erewrite bind_err by (apply raise_for_status_err; exact Hstatus).
  reflexivity.
Qed.

(** ** What [generate_image] returns and stores *)

(** X1. Whatever the provider does, a path returned by [generate_image] is
    the name it drew under the output directory, and the call has just
    completed the write of non-empty image bytes under that name; when the
    call returns the absent result it has written nothing. *)
Theorem generate_image_stores_what_it_returns env prompt hint seed w :
  match generate_image env prompt hint seed w with
  | (inr (Some path), w') =>
      path = image_path env w
      /\ exists b, b <> [] /\ files w' = (path, FBytes b) :: files w
  | (inr None, w') => files w' = files w
  | (inl _, _) => True
  end.
Proof.
  rewrite generate_image_eq.
  pose proof (dispatch_image_frame env (chosen_provider env hint) prompt seed
                (tick w)) as (Hfiles & _ & _).
  destruct (dispatch_image env (chosen_provider env hint) prompt seed (tick w))
    as [[e | [b |]] w1]; simpl in Hfiles; try exact Hfiles; [exact I |].
  destruct b as [| x b]; simpl; [exact Hfiles |].
  destruct (fs_write env (image_path env w) (clock w1)); simpl.
  - exact I.
  - split; [reflexivity |]. exists (x :: b). split; [discriminate |].
    now rewrite Hfiles.
Qed.

(** X2. With the provider [openai] configured, a response with a passing
    status whose [data[0].b64_json] decodes to non-empty bytes, and a storage
    that accepts the write, [generate_image] returns the drawn path, has sent
    exactly the image request and has stored the decoded bytes there. *)
Theorem generate_image_openai_delivers env prompt hint seed w r j b64 b :
  chosen_provider env hint = "openai" ->
  OPENAI_API_KEY env <> "" ->
  http_post env (openai_image_request env prompt "1024x1024" seed)
    (S (clock w)) = Ok r ->
  status_ok r ->
  resp_json r = Ok j ->
  openai_b64 j = Ok (PStr b64) ->
  b64decode env b64 = Ok b ->
  b <> [] ->
  fs_write env (image_path env w) (S (S (clock w))) = None ->
  generate_image env prompt hint seed w
  = (Ok (Some (image_path env w)),
     stored (image_path env w) (FBytes b)
       (posted (openai_image_request env prompt "1024x1024" seed) (tick w))).
Proof.
  intros Hprov Hkey Hpost Hstatus Hjson Hfield Hdec Hb Hfs.
  rewrite generate_image_eq, Hprov.
  rewrite (dispatch_openai env prompt seed (tick w) r j) by assumption.
  rewrite Hfield. cbv beta iota delta [decoded py_b64decode Ok].
  unfold Ok in Hdec. rewrite Hdec.
  destruct b as [| x b]; [congruence |]. simpl bytes_truthy. cbv iota.
  cbn [clock posted tick]. rewrite Hfs. reflexivity.
Qed.

Lemma generate_image_openai_delivers_witness :
  generate_image (Sample.image_provider 7) "a boat" None (Some 5) world0
  = (Ok (Some "output/img_0a0b1c2d3e4f.png"),
     stored "output/img_0a0b1c2d3e4f.png" (FBytes ["h"; "i"]%byte)
       (posted (openai_image_request (Sample.image_provider 7) "a boat"
                  "1024x1024" (Some 5)) (tick world0))).
Proof.
  exact (generate_image_openai_delivers (Sample.image_provider 7) "a boat"
           None (Some 5) world0 Sample.image_ok
           (PDict [("data", PList [PDict [("b64_json", PStr "aGk=")]])])
           "aGk=" ["h"; "i"]%byte
           eq_refl ltac:(discriminate) eq_refl ltac:(left; reflexivity)
           eq_refl eq_refl eq_refl ltac:(discriminate) eq_refl).
Defined.

(** X3. The same for the provider [stability], whose encoded image is read
    at [artifacts[0].base64]. *)
Theorem generate_image_stability_delivers env prompt hint seed w r j b64 b :
  chosen_provider env hint = "stability" ->
  STABILITY_API_KEY env <> "" ->
  http_post env (stability_image_request env prompt 1024 1024 seed)
    (S (clock w)) = Ok r ->
  status_ok r ->
  resp_json r = Ok j ->
  stability_b64 j = Ok (PStr b64) ->
  b64decode env b64 = Ok b ->
  b <> [] ->
  fs_write env (image_path env w) (S (S (clock w))) = None ->
  generate_image env prompt hint seed w
  = (Ok (Some (image_path env w)),
     stored (image_path env w) (FBytes b)
       (posted (stability_image_request env prompt 1024 1024 seed) (tick w))).
Proof.
  intros Hprov Hkey Hpost Hstatus Hjson Hfield Hdec Hb Hfs.
  rewrite generate_image_eq, Hprov.
  rewrite (dispatch_stability env prompt seed (tick w) r j) by assumption.
  rewrite Hfield. cbv beta iota delta [decoded py_b64decode Ok].
  unfold Ok in Hdec. rewrite Hdec.
  destruct b as [| x b]; [congruence |]. simpl bytes_truthy. cbv iota.
  cbn [clock posted tick]. rewrite Hfs. reflexivity.
Qed.

Lemma generate_image_stability_delivers_witness :
  generate_image Scenario.stability_provider "a boat" None (Some 5) world0
  = (Ok (Some "output/img_0a0b1c2d3e4f.png"),
     stored "output/img_0a0b1c2d3e4f.png" (FBytes ["h"; "i"]%byte)
       (posted (stability_image_request Scenario.stability_provider "a boat"
                  1024 1024 (Some 5)) (tick world0))).
Proof.
  exact (generate_image_stability_delivers Scenario.stability_provider "a boat"
           None (Some 5) world0 Scenario.stability_ok
           (PDict [("artifacts", PList [PDict [("base64", PStr "aGk=")]])])
           "aGk=" ["h"; "i"]%byte
           eq_refl ltac:(discriminate) eq_refl ltac:(left; reflexivity)
           eq_refl eq_refl eq_refl ltac:(discriminate) eq_refl).
Defined.

(** X4. An encoded image that decodes to no bytes at all counts as no image:
    [generate_image] returns the absent result and stores nothing, although
    the request was sent and answered. *)
Theorem generate_image_empty_image_is_absent env prompt hint seed w r j b64 :
  chosen_provider env hint = "openai" ->
  OPENAI_API_KEY env <> "" ->
  http_post env (openai_image_request env prompt "1024x1024" seed)
    (S (clock w)) = Ok r ->
  status_ok r ->
  resp_json r = Ok j ->
  openai_b64 j = Ok (PStr b64) ->
  b64decode env b64 = Ok [] ->
  generate_image env prompt hint seed w
  = (Ok None,
     posted (openai_image_request env prompt "1024x1024" seed) (tick w)).
Proof.
  intros Hprov Hkey Hpost Hstatus Hjson Hfield Hdec.
  rewrite generate_image_eq, Hprov.
  rewrite (dispatch_openai env prompt seed (tick w) r j) by assumption.
  rewrite Hfield. cbv beta iota delta [decoded py_b64decode Ok].
  unfold Ok in Hdec. rewrite Hdec. reflexivity.
Qed.

Lemma generate_image_empty_image_is_absent_witness :
  generate_image Scenario.empty_image_provider "a boat" None (Some 5) world0
  = (Ok None,
     posted (openai_image_request Scenario.empty_image_provider "a boat"
               "1024x1024" (Some 5)) (tick world0))
  /\ files (snd (generate_image Scenario.empty_image_provider "a boat" None
                   (Some 5) world0)) = [].
Proof.
  pose proof (generate_image_empty_image_is_absent
                Scenario.empty_image_provider "a boat" None (Some 5) world0
                Scenario.image_empty
                (PDict [("data", PList [PDict [("b64_json", PStr "")]])]) ""
                eq_refl ltac:(discriminate) eq_refl ltac:(left; reflexivity)
                eq_refl eq_refl eq_refl) as H.
  split; [exact H | rewrite H; reflexivity].
Defined.

(** X5. When the image service answers with a status from 400 to 599,
    [generate_image] raises an [HTTPError]: the body is not read, nothing is
    decoded and nothing is stored. This holds for either provider. *)
Theorem generate_image_http_error_raises env prompt hint seed w r :
  400 <= status_code r < 600 ->
  (chosen_provider env hint = "openai" ->
   OPENAI_API_KEY env <> "" ->
   http_post env (openai_image_request env prompt "1024x1024" seed)
     (S (clock w)) = Ok r ->
   exists e,
     exn_cls e = HTTPError
     /\ generate_image env prompt hint seed w
        = (Err e,
           posted (openai_image_request env prompt "1024x1024" seed) (tick w)))
  /\ (chosen_provider env hint = "stability" ->
      STABILITY_API_KEY env <> "" ->
      http_post env (stability_image_request env prompt 1024 1024 seed)
        (S (clock w)) = Ok r ->
      exists e,
        exn_cls e = HTTPError
        /\ generate_image env prompt hint seed w
           = (Err e,
              posted (stability_image_request env prompt 1024 1024 seed)
                (tick w))).
Proof.
  intros Hstatus. split; intros Hprov Hkey Hpost;
    exists (Exn HTTPError ("HTTP error " ++ str_of_int (status_code r)));
    (split; [reflexivity |]);
    rewrite generate_image_eq, Hprov.
  - change (dispatch_image env "openai" prompt seed (tick w))
      with (generate_image_openai env prompt "1024x1024" seed (tick w)).
    rewrite (surjective_pairing (generate_image_openai _ _ _ _ _)).
    rewrite (generate_image_openai_http_error env prompt "1024x1024" seed
               (tick w) r) by assumption.
    rewrite generate_image_openai_world by assumption. reflexivity.
  - change (dispatch_image env "stability" prompt seed (tick w))
      with (generate_image_stability env prompt 1024 1024 seed (tick w)).
    rewrite (surjective_pairing (generate_image_stability _ _ _ _ _ _)).
    rewrite (generate_image_stability_http_error env prompt 1024 1024 seed
               (tick w) r) by assumption.
    rewrite generate_image_stability_world by assumption. reflexivity.
Qed.

Lemma generate_image_http_error_raises_witness :
  exists e,
    exn_cls e = HTTPError
    /\ generate_image (Sample.image_provider 1) "a boat" None (Some 5) world0
       = (Err e,
          posted (openai_image_request (Sample.image_provider 1) "a boat"
                    "1024x1024" (Some 5)) (tick world0)).
Proof.
  exact (proj1 (generate_image_http_error_raises (Sample.image_provider 1)
                  "a boat" None (Some 5) world0 Sample.image_error
                  ltac:(simpl; lia))
               eq_refl ltac:(discriminate) eq_refl).
Defined.

(** X6. A provider name other than [openai] and [stability] selects no
    adapter: [generate_image] returns the absent result without sending or
    storing anything, whatever credentials are configured. *)
Theorem generate_image_unknown_provider env prompt hint seed w :
  chosen_provider env hint <> "openai" ->
  chosen_provider env hint <> "stability" ->
  generate_image env prompt hint seed w = (Ok None, tick w).
Proof.
  intros Ha Hb. rewrite generate_image_eq. unfold dispatch_image.
  destruct (String.eqb_spec (chosen_provider env hint) "openai");
    [contradiction |].
  destruct (String.eqb_spec (chosen_provider env hint) "stability");
    [contradiction |].
  reflexivity.
Qed.

Lemma generate_image_unknown_provider_witness :
  OPENAI_API_KEY Scenario.unknown_provider <> ""
  /\ STABILITY_API_KEY Scenario.unknown_provider <> ""
  /\ generate_image Scenario.unknown_provider "a boat" None (Some 5) world0
     = (Ok None, tick world0).
Proof.
  split; [discriminate | split; [discriminate |]].
  apply (generate_image_unknown_provider Scenario.unknown_provider "a boat"
           None (Some 5) world0); discriminate.
Defined.

(** X7. A configured adapter sends exactly one request per call, whatever
    the answer: to its own endpoint, with a 60 second timeout, carrying the
    prompt, and carrying the seed when one is given and no [seed] field when
    none is. It stores and flashes nothing. *)
Theorem configured_adapter_sends_one_request env prompt seed w :
  (OPENAI_API_KEY env <> "" ->
   forall size,
   exists req,
     snd (generate_image_openai env prompt size seed w) = posted req w
     /\ req_url req = "https://api.openai.com/v1/images/generations"
     /\ req_timeout req = 60
     /\ template_field (req_json req) "prompt" = Some (PStr prompt)
     /\ template_field (req_json req) "size" = Some (PStr size)
     /\ template_field (req_json req) "seed" = option_map PInt seed)
  /\ (STABILITY_API_KEY env <> "" ->
      forall width height,
      exists req,
        snd (generate_image_stability env prompt width height seed w)
        = posted req w
        /\ req_url req
           = "https://api.stability.ai/v1/generation/stable-diffusion-v1-5/text-to-image"
        /\ req_timeout req = 60
        /\ template_field (req_json req) "text_prompts"
           = Some (PList [PDict [("text", PStr prompt)]])
        /\ template_field (req_json req) "width" = Some (PInt width)
        /\ template_field (req_json req) "height" = Some (PInt height)
        /\ template_field (req_json req) "seed" = option_map PInt seed).
Proof.
  split; intros Hkey.
  - intros size. exists (openai_image_request env prompt size seed).
    rewrite generate_image_openai_world by exact Hkey.
    repeat split; destruct seed; reflexivity.
  - intros width height.
    exists (stability_image_request env prompt width height seed).
    rewrite generate_image_stability_world by exact Hkey.
    repeat split; destruct seed; reflexivity.
Qed.

Lemma configured_adapter_sends_one_request_witness :
  (exists req,
     snd (generate_image_openai (Sample.image_provider 7) "a boat" "1024x1024"
            None world0) = posted req world0
     /\ template_field (req_json req) "seed" = None)
  /\ (exists req,
        snd (generate_image_stability Scenario.stability_provider "a boat"
               1024 1024 (Some 5) world0) = posted req world0
        /\ template_field (req_json req) "seed" = Some (PInt 5)).
Proof.
  split.
  - destruct (proj1 (configured_adapter_sends_one_request
                       (Sample.image_provider 7) "a boat" None world0)
                    ltac:(discriminate) "1024x1024")
      as (req & Hw & _ & _ & _ & _ & Hseed).
    exists req. split; assumption.
  - destruct (proj2 (configured_adapter_sends_one_request
                       Scenario.stability_provider "a boat" (Some 5) world0)
                    ltac:(discriminate) 1024 1024)
      as (req & Hw & _ & _ & _ & _ & _ & Hseed).
    exists req. split; assumption.
Defined.

(** ** Effects of the illustration loop *)

Lemma bind_lift {A B} (r : result A) (k : A -> M B) w :
  bind (lift r) k w
  = match r with
    | inr a => k a w
    | inl e => (inl e, w)
    end.
Proof. destruct r; reflexivity. Qed.

Lemma generate_image_frame env prompt hint seed w :
  flashed (snd (generate_image env prompt hint seed w)) = flashed w
  /\ (sent (snd (generate_image env prompt hint seed w)) = sent w
      \/ exists req,
           sent (snd (generate_image env prompt hint seed w)) = req :: sent w).
Proof.
  rewrite generate_image_eq.
  pose proof (dispatch_image_frame env (chosen_provider env hint) prompt seed
                (tick w)) as (_ & Hflash & Hsent).
  destruct (dispatch_image env (chosen_provider env hint) prompt seed (tick w))
    as [[e | [b |]] w1]; simpl in *; try (split; assumption).
  destruct (bytes_truthy b); [| split; assumption].
  destruct (fs_write env (image_path env w) (clock w1)); simpl;
    split; assumption.
Qed.

Lemma illustrate_page_frame env name age p acc w :
  flashed (snd (illustrate_page env name age p acc w)) = flashed w
  /\ (List.length (sent (snd (illustrate_page env name age p acc w)))
      <= S (List.length (sent w)))%nat.
Proof.
  unfold illustrate_page. rewrite bind_lift.
  destruct (page_prompt env name age p) as [e | prompt]; cbn [snd].
  { split; [reflexivity | lia]. }
  rewrite bind_world by (intros a; apply ret_silent).
  rewrite try_except_absorbs. cbn [snd].
  unfold page_image. rewrite bind_lift.
  destruct (page_seed env name p) as [e | seed]; cbn [snd].
  { split; [reflexivity | lia]. }
  destruct (generate_image_frame env prompt None (Some seed) w)
    as (Hflash & [Hsent | (req & Hsent)]); rewrite Hflash, Hsent;
    simpl; split; (reflexivity || lia).
Qed.

Lemma for_each_illustrate_frame env name age ps :
  forall acc w,
    flashed (snd (for_each ps (illustrate_page env name age) acc w))
    = flashed w
    /\ (List.length
          (sent (snd (for_each ps (illustrate_page env name age) acc w)))
        <= List.length (sent w) + List.length ps)%nat.
Proof.
  induction ps as [| p ps IH]; intros acc w; simpl.
  - split; [reflexivity | lia].
  - unfold bind.
    pose proof (illustrate_page_frame env name age p acc w) as (Hf & Hs).
    destruct (illustrate_page env name age p acc w) as [[e | acc'] w1];
      simpl in *.
    + split; [exact Hf | lia].
    + destruct (IH acc' w1) as (Hf' & Hs'). split; [congruence | lia].
Qed.

(** X8. The illustration loop sends at most one request per page and never
    flashes a notice, whatever the providers answer and whether or not it
    ends normally. *)
Theorem illustrate_one_request_per_page_at_most env name age entries ps w :
  dict_get entries "pages" (PList []) = PList ps ->
  flashed (snd (illustrate env name age (PDict entries) w)) = flashed w
  /\ (List.length (sent (snd (illustrate env name age (PDict entries) w)))
      <= List.length (sent w) + List.length ps)%nat.
Proof.
  intros Hpages. unfold illustrate. simpl. unfold bind, lift.
  rewrite Hpages. simpl.
  apply for_each_illustrate_frame.
Qed.

Lemma illustrate_one_request_per_page_at_most_witness :
  let story := Sample.two_page_story in
  flashed (snd (illustrate Sample.images_down "Mina" "6" story world0)) = []
  /\ (List.length (sent (snd (illustrate Sample.images_down "Mina" "6" story
                                world0)))
      <= 0 + 2)%nat.
Proof.
  exact (illustrate_one_request_per_page_at_most Sample.images_down "Mina" "6"
           [ ("title", PStr "Mina at sea"); ("synopsis", PStr "Mina sails.");
             ("pages",
              PList
                [ PDict [ ("page", PInt 1);
                          ("page_text", PStr "Mina finds a boat.");
                          ("image_description", PStr "a small boat") ];
                  PDict [ ("page", PInt 2);
                          ("page_text", PStr "Mina sails home.");
                          ("image_description", PStr "a harbour") ] ]) ]
           _ world0 eq_refl).
Defined.

(** Without image credentials a page record gets the absent result, and the
    world moves by the clock only. *)
Lemma illustrate_page_unconfigured env name age p acc w :
  OPENAI_API_KEY env = "" ->
  STABILITY_API_KEY env = "" ->
  is_page p ->
  exists w',
    illustrate_page env name age p acc w = (Ok (acc ++ [None])%list, w')
    /\ same_apart_from_clock w w'.
Proof.
  intros Ha Hb Hp.
  destruct (page_prompt_total env name age p Hp) as [prompt Hprompt].
  rewrite (illustrate_page_spec env name age p acc prompt w Hprompt).
  unfold page_image. rewrite bind_lift.
  destruct (page_seed env name p) as [e | seed]; cbn [fst snd absorbed].
  - exists w. split; [reflexivity | repeat split].
  - rewrite (generate_image_unconfigured env prompt None (Some seed) w Ha Hb).
    cbn [fst snd absorbed]. exists (tick w).
    split; [reflexivity | repeat split].
Qed.

Lemma for_each_unconfigured env name age ps :
  OPENAI_API_KEY env = "" ->
  STABILITY_API_KEY env = "" ->
  Forall is_page ps ->
  forall acc w,
  exists w',
    for_each ps (illustrate_page env name age) acc w
    = (Ok (acc ++ repeat None (List.length ps))%list, w')
    /\ same_apart_from_clock w w'.
Proof.
  intros Ha Hb. induction 1 as [| p ps Hp _ IH]; intros acc w; simpl.
  - exists w. rewrite app_nil_r. split; [reflexivity | repeat split].
  - destruct (illustrate_page_unconfigured env name age p acc w Ha Hb Hp)
      as (w1 & Hrun & Hs1 & Hf1 & Hn1).
    erewrite bind_ok by exact Hrun.
    destruct (IH (acc ++ [None])%list w1) as (w' & Hloop & Hs & Hf & Hn).
    exists w'. rewrite Hloop, <- app_assoc. split; [reflexivity |].
    repeat split; congruence.
Qed.

(** X9. With neither image credential configured, the illustration of a
    story of page records ends normally with every result absent, one per
    page, and has sent, stored and flashed nothing. *)
Theorem illustrate_unconfigured_all_absent env name age entries ps w :
  OPENAI_API_KEY env = "" ->
  STABILITY_API_KEY env = "" ->
  dict_get entries "pages" (PList []) = PList ps ->
  Forall is_page ps ->
  exists w',
    illustrate env name age (PDict entries) w
    = (Ok (repeat None (List.length ps)), w')
    /\ same_apart_from_clock w w'.
Proof.
  intros Ha Hb Hpages Hps.
  destruct (for_each_unconfigured env name age ps Ha Hb Hps [] w)
    as (w' & Hloop & Hsame).
  exists w'. split; [| exact Hsame].
  unfold illustrate. simpl. unfold bind, lift. rewrite Hpages. simpl.
  exact Hloop.
Qed.

Lemma illustrate_unconfigured_all_absent_witness :
  exists w',
    illustrate (Sample.offline 1) "Mina" "6" Sample.two_page_story world0
    = (Ok [None; None], w')
    /\ same_apart_from_clock world0 w'.
Proof.
  apply (illustrate_unconfigured_all_absent (Sample.offline 1) "Mina" "6"
           [ ("title", PStr "Mina at sea"); ("synopsis", PStr "Mina sails.");
             ("pages",
              PList
                [ PDict [ ("page", PInt 1);
                          ("page_text", PStr "Mina finds a boat.");
                          ("image_description", PStr "a small boat") ];
                  PDict [ ("page", PInt 2);
                          ("page_text", PStr "Mina sails home.");
                          ("image_description", PStr "a harbour") ] ]) ]
           _ world0 eq_refl eq_refl eq_refl).
  repeat constructor; eexists; reflexivity.
Defined.

(** ** Stories outside the loop's domain *)

Lemma page_prompt_not_a_record env name age p :
  ~ is_page p ->
  page_prompt env name age p
  = Err (Exn AttributeError "object has no attribute 'get'").
Proof.
  intros Hp. destruct p; try reflexivity.
  exfalso. apply Hp. eexists; reflexivity.
Qed.

Lemma for_each_stops_at_non_record env name age good bad rest :
  Forall is_page good ->
  ~ is_page bad ->
  forall acc w,
  exists imgs w1,
    illustrated env name age good w imgs w1
    /\ for_each (good ++ bad :: rest) (illustrate_page env name age) acc w
       = (Err (Exn AttributeError "object has no attribute 'get'"), w1).
Proof.
  intros Hgood Hbad. induction Hgood as [| p ps Hp _ IH]; intros acc w.
  - exists [], w. split; [constructor |].
    simpl. unfold bind, illustrate_page. rewrite bind_lift.
    rewrite (page_prompt_not_a_record env name age bad Hbad). reflexivity.
  - destruct (page_prompt_total env name age p Hp) as [prompt Hprompt].
    simpl.
    erewrite bind_ok by (apply illustrate_page_spec; eassumption).
    destruct (page_image env name prompt p w) as [r w0] eqn:Hrun.
    cbn [fst snd].
    destruct (IH (acc ++ [absorbed r])%list w0) as (imgs & w1 & Hrel & Hloop).
    exists (absorbed r :: imgs), w1. split.
    + econstructor; eassumption.
    + exact Hloop.
Qed.

(** X10. A page that is not a record stops the illustration with an
    [AttributeError]: the pages before it have been illustrated, with their
    requests sent and images stored, and the pages after it are not
    visited. *)
Theorem illustrate_stops_at_non_record_page env name age entries good bad rest w :
  dict_get entries "pages" (PList []) = PList (good ++ bad :: rest) ->
  Forall is_page good ->
  ~ is_page bad ->
  exists imgs w1 e,
    illustrated env name age good w imgs w1
    /\ exn_cls e = AttributeError
    /\ illustrate env name age (PDict entries) w = (Err e, w1).
Proof.
  intros Hpages Hgood Hbad.
  destruct (for_each_stops_at_non_record env name age good bad rest Hgood Hbad
              [] w) as (imgs & w1 & Hrel & Hloop).
  exists imgs, w1, (Exn AttributeError "object has no attribute 'get'").
  split; [exact Hrel | split; [reflexivity |]].
  unfold illustrate. simpl. unfold bind, lift. rewrite Hpages. simpl.
  exact Hloop.
Qed.

Lemma illustrate_stops_at_non_record_page_witness :
  let first :=
    PDict [("page", PInt 1); ("image_description", PStr "a boat")] in
  let last :=
    PDict [("page", PInt 3); ("image_description", PStr "a harbour")] in
  exists imgs w1 e,
    illustrated (Sample.image_provider 7) "Mina" "6" [first] world0 imgs w1
    /\ exn_cls e = AttributeError
    /\ illustrate (Sample.image_provider 7) "Mina" "6"
         (PDict [("pages", PList [first; PStr "page two"; last])]) world0
       = (Err e, w1).
Proof.
  apply (illustrate_stops_at_non_record_page (Sample.image_provider 7) "Mina"
           "6"
           [("pages",
             PList [ PDict [("page", PInt 1);
                            ("image_description", PStr "a boat")];
                     PStr "page two";
                     PDict [("page", PInt 3);
                            ("image_description", PStr "a harbour")] ])]
           [PDict [("page", PInt 1); ("image_description", PStr "a boat")]]
           (PStr "page two")
           [PDict [("page", PInt 3); ("image_description", PStr "a harbour")]]
           world0 eq_refl).
  - repeat constructor. eexists; reflexivity.
  - intros [entries H]. discriminate H.
Defined.

(** X11. A story that is not a mapping makes the illustration raise an
    [AttributeError], and a [pages] field holding [None], a boolean or a
    number makes it raise a [TypeError]; in both cases before anything is
    done. *)
Theorem illustrate_rejects_malformed_story env name age w :
  (forall story,
     ~ is_page story ->
     exists e,
       exn_cls e = AttributeError
       /\ illustrate env name age story w = (Err e, w))
  /\ (forall entries v,
        assoc_lookup "pages" entries = Some v ->
        (v = PNone \/ (exists b, v = PBool b) \/ (exists n, v = PInt n)
         \/ (exists x, v = PFloat x)) ->
        exists e,
          exn_cls e = TypeError
          /\ illustrate env name age (PDict entries) w = (Err e, w)).
Proof.
  split.
  - intros story Hs.
    exists (Exn AttributeError "object has no attribute 'get'").
    split; [reflexivity |].
    unfold illustrate. rewrite bind_lift.
    destruct story; try reflexivity.
    exfalso. apply Hs. eexists; reflexivity.
  - intros entries v Hv Hkind.
    exists (Exn TypeError "object is not iterable").
    split; [reflexivity |].
    unfold illustrate. rewrite bind_lift.
    unfold py_get, dict_get. rewrite Hv. cbv beta iota delta [Ok].
    rewrite bind_lift.
    destruct Hkind as [-> | [[b ->] | [[n ->] | [x ->]]]]; reflexivity.
Qed.

Lemma illustrate_rejects_malformed_story_witness :
  (exists e,
     exn_cls e = AttributeError
     /\ illustrate (Sample.offline 1) "Mina" "6" (PList []) world0
        = (Err e, world0))
  /\ (exists e,
        exn_cls e = TypeError
        /\ illustrate (Sample.offline 1) "Mina" "6" (PDict [("pages", PNone)])
             world0
           = (Err e, world0)).
Proof.
  pose proof (illustrate_rejects_malformed_story (Sample.offline 1) "Mina" "6"
                world0) as [Ha Hb].
  split.
  - apply Ha. intros [entries H]. discriminate H.
  - apply (Hb [("pages", PNone)] PNone eq_refl). left. reflexivity.
Defined.

(** ** An image that cannot be stored *)

(** X12. When the provider delivers an image and the write of the image file
    fails, the page's illustration is absent: the storage error is absorbed
    by the loop body, which appends [None] and goes on. The request has been
    sent, and no notice is flashed. *)
Theorem illustrate_page_absorbs_storage_failure
    env name age entries acc w prompt seed r j b64 b e :
  page_prompt env name age (PDict entries) = Ok prompt ->
  page_seed env name (PDict entries) = Ok seed ->
  IMAGE_PROVIDER env = "openai" ->
  OPENAI_API_KEY env <> "" ->
  http_post env (openai_image_request env prompt "1024x1024" (Some seed))
    (S (clock w)) = Ok r ->
  status_ok r ->
  resp_json r = Ok j ->
  openai_b64 j = Ok (PStr b64) ->
  b64decode env b64 = Ok b ->
  b <> [] ->
  fs_write env (image_path env w) (S (S (clock w))) = Some e ->
  exists w',
    illustrate_page env name age (PDict entries) acc w
    = (Ok (acc ++ [None])%list, w')
    /\ sent w'
       = openai_image_request env prompt "1024x1024" (Some seed) :: sent w
    /\ flashed w' = flashed w.
Proof.
  intros Hprompt Hseed Hprov Hkey Hpost Hstatus Hjson Hfield Hdec Hb Hfs.
  exists (tick (posted (openai_image_request env prompt "1024x1024" (Some seed))
                  (tick w))).
  split; [| split; reflexivity].
  rewrite (illustrate_page_spec env name age (PDict entries) acc prompt w
             Hprompt).
  unfold page_image. rewrite bind_lift, Hseed. cbv beta iota delta [Ok].
  rewrite generate_image_eq.
  change (chosen_provider env None) with (IMAGE_PROVIDER env). rewrite Hprov.
  rewrite (dispatch_openai env prompt (Some seed) (tick w) r j) by assumption.
  rewrite Hfield. cbv beta iota delta [decoded py_b64decode Ok].
  unfold Ok in Hdec. rewrite Hdec.
  destruct b as [| x b]; [congruence |]. simpl bytes_truthy. cbv iota.
  cbn [clock posted tick]. rewrite Hfs. reflexivity.
Qed.

Lemma illustrate_page_absorbs_storage_failure_witness :
  let env := Scenario.image_store_down in
  let page := [("page", PInt 1); ("image_description", PStr "a boat")] in
  exists w',
    illustrate_page env "Mina" "6" (PDict page) [] world0 = (Ok [None], w')
    /\ List.length (sent w') = 1%nat
    /\ flashed w' = [].
Proof.
  destruct (illustrate_page_absorbs_storage_failure
              Scenario.image_store_down "Mina" "6"
              [("page", PInt 1); ("image_description", PStr "a boat")] []
              world0 _ _ Sample.image_ok
              (PDict [("data", PList [PDict [("b64_json", PStr "aGk=")]])])
              "aGk=" ["h"; "i"]%byte (Exn OSError "No space left on device")
              eq_refl eq_refl eq_refl ltac:(discriminate) eq_refl
              ltac:(left; reflexivity) eq_refl eq_refl eq_refl
              ltac:(discriminate) eq_refl) as (w' & Hrun & Hsent & Hflash).
  exists w'. split; [exact Hrun | split; [| exact Hflash]].
  rewrite Hsent. reflexivity.
Defined.

(** ** Story generation *)

Lemma sample_pages_numbers name age theme n :
  map (fun p => template_field p "page") (sample_pages name age theme n)
  = map (fun i => Some (PInt i)) (py_range 1 (n + 1)).
Proof.
  rewrite sample_pages_map, map_map. reflexivity.
Qed.



Lemma generate_story_world env name age theme tone n w :
  OPENAI_API_KEY env <> "" ->
  snd (generate_story_with_openai env name age theme tone n w)
  = posted (story_request env name age theme tone n) w.
Proof.
  intros Hkey. unfold generate_story_with_openai.
  rewrite (key_configured _ Hkey).
  rewrite bind_world by (intros r; silence).
  reflexivity.
Qed.

(** X14. With a text-provider credential, story generation sends exactly one
    request, whatever the provider answers and whether or not the call ends
    normally: to the chat endpoint, with a 30 second timeout and the
    credential as bearer token. It stores nothing and flashes nothing. *)
Theorem generate_story_sends_one_request env name age theme tone n w :
  OPENAI_API_KEY env <> "" ->
  exists req,
    snd (generate_story_with_openai env name age theme tone n w) = posted req w
    /\ req_url req = "https://api.openai.com/v1/chat/completions"
    /\ req_timeout req = 30
    /\ assoc_lookup "Authorization" (req_headers req)
       = Some ("Bearer " ++ OPENAI_API_KEY env)
    /\ template_field (req_json req) "model" = Some (PStr "gpt-4o-mini").
Proof.
  intros Hkey. exists (story_request env name age theme tone n).
  rewrite generate_story_world by exact Hkey.
  repeat split.
Qed.

Lemma generate_story_sends_one_request_witness :
  exists req,
    snd (generate_story_with_openai Scenario.text_provider_unreachable "Mina"
           "6" "ocean" "playful" 4 world0) = posted req world0
    /\ req_timeout req = 30.
Proof.
  destruct (generate_story_sends_one_request Scenario.text_provider_unreachable
              "Mina" "6" "ocean" "playful" 4 world0 ltac:(discriminate))
    as (req & Hw & _ & Ht & _).
  exists req. split; assumption.
Defined.

Lemma generate_story_transport_failure env name age theme tone n w e :
  OPENAI_API_KEY env <> "" ->
  http_post env (story_request env name age theme tone n) (clock w) = Err e ->
  fst (generate_story_with_openai env name age theme tone n w) = Err e.
Proof.
  intros Hkey Hpost. unfold generate_story_with_openai.
  rewrite (key_configured _ Hkey).
  erewrite bind_err by (unfold requests_post; rewrite Hpost; reflexivity).
  reflexivity.
Qed.

Lemma generate_story_http_error env name age theme tone n w r :
  OPENAI_API_KEY env <> "" ->
  http_post env (story_request env name age theme tone n) (clock w) = Ok r ->
  400 <= status_code r < 600 ->
  fst (generate_story_with_openai env name age theme tone n w)
  = Err (Exn HTTPError ("HTTP error " ++ str_of_int (status_code r))).
Proof.
  intros Hkey Hpost Hstatus. unfold generate_story_with_openai.
  rewrite (key_configured _ Hkey).
  erewrite bind_ok by (unfold requests_post; rewrite Hpost; reflexivity).
  erewrite bind_err by (apply raise_for_status_err; exact Hstatus).
  reflexivity.
Qed.

(** ** Jobs that abort *)

Lemma create_aborts env form req e w w1 :
  read_form form = Ok req ->
  generate_story_with_openai env (child_name req) (age req) (theme req)
    (tone req) (pages req) w = (Err e, w1) ->
  create env form w
  = (Ok (Redirect "/"),
     {| clock := clock w1; sent := sent w1; files := files w1;
        flashed := ("Error generating story: " ++ exn_msg e) :: flashed w1 |}).
Proof.
  intros Hform Hgen. unfold create.
  rewrite bind_lift, Hform. cbv beta iota delta [Ok].
  erewrite bind_ok by (unfold attempt; rewrite Hgen; reflexivity).
  reflexivity.
Qed.

(** X15. With a text-provider credential, a failure of the exchange aborts
    the job with a notice and no document. When the request itself raises
    [e] (no connection, timeout), the reply is a redirect to the form, the
    notice flashed is ["Error generating story: "] followed by the text of
    [e], one request has been sent and nothing is stored. When the provider
    answers with a status from 400 to 599, the same happens with the text of
    the [HTTPError]; the body of the answer is not read. *)
Theorem text_provider_failure_aborts_job env form req w :
  read_form form = Ok req ->
  OPENAI_API_KEY env <> "" ->
  let request :=
    story_request env (child_name req) (age req) (theme req) (tone req)
      (pages req) in
  (forall e,
     http_post env request (clock w) = Err e ->
     create env form w
     = (Ok (Redirect "/"),
        {| clock := S (clock w); sent := request :: sent w; files := files w;
           flashed := ("Error generating story: " ++ exn_msg e) :: flashed w |}))
  /\ (forall r,
        http_post env request (clock w) = Ok r ->
        400 <= status_code r < 600 ->
        exists msg,
          create env form w
          = (Ok (Redirect "/"),
             {| clock := S (clock w); sent := request :: sent w;
                files := files w;
                flashed := ("Error generating story: " ++ msg) :: flashed w |})).
Proof.
  intros Hform Hkey request. split.
  - intros e Hpost.
    rewrite (create_aborts env form req e w (posted request w) Hform).
    + reflexivity.
    + rewrite (surjective_pairing (generate_story_with_openai _ _ _ _ _ _ _)).
      rewrite generate_story_world by exact Hkey.
      rewrite (generate_story_transport_failure env _ _ _ _ _ w e Hkey Hpost).
      reflexivity.
  - intros r Hpost Hstatus.
    exists ("HTTP error " ++ str_of_int (status_code r)).
    rewrite (create_aborts env form req
               (Exn HTTPError ("HTTP error " ++ str_of_int (status_code r)))
               w (posted request w) Hform).
    + reflexivity.
    + rewrite (surjective_pairing (generate_story_with_openai _ _ _ _ _ _ _)).
      rewrite generate_story_world by exact Hkey.
      rewrite (generate_story_http_error env _ _ _ _ _ w r Hkey Hpost Hstatus).
      reflexivity.
Qed.

Lemma text_provider_failure_aborts_job_witness :
  fst (create Scenario.text_provider_unreachable Sample.mina_form world0)
  = Ok (Redirect "/")
  /\ flashed (snd (create Scenario.text_provider_unreachable Sample.mina_form
                     world0))
     = ["Error generating story: connection refused"]
  /\ fst (create Scenario.text_provider_busy Sample.mina_form world0)
     = Ok (Redirect "/")
  /\ files (snd (create Scenario.text_provider_busy Sample.mina_form world0))
     = [].
Proof.
  pose proof (proj1 (text_provider_failure_aborts_job
                       Scenario.text_provider_unreachable Sample.mina_form
                       {| child_name := "Mina"; age := "6"; theme := "ocean";
                          tone := "playful"; pages := 4 |}
                       world0 eq_refl ltac:(discriminate))
                    (Exn RequestException "connection refused") eq_refl) as Ha.
  destruct (proj2 (text_provider_failure_aborts_job
                     Scenario.text_provider_busy Sample.mina_form
                     {| child_name := "Mina"; age := "6"; theme := "ocean";
                        tone := "playful"; pages := 4 |}
                     world0 eq_refl ltac:(discriminate))
                  {| status_code := 429; resp_json := Ok (PDict []) |} eq_refl
                  ltac:(simpl; lia)) as (msg & Hb).
  rewrite Ha, Hb. repeat split; reflexivity.
Defined.

(** ** [assemble], step by step *)

Lemma assemble_eq env name story images w :
  assemble env name story images w
  = let doc := render_story_template story images name in
    match fs_write env (html_path env w) (S (clock w)) with
    | Some e => (Err e, tick (tick w))
    | None =>
        let w1 := stored (html_path env w) (FText doc) (tick w) in
        match write_pdf env doc (S (S (clock w))) with
        | inl e => (Err e, tick w1)
        | inr b =>
            match fs_write env (pdf_path env name w)
                    (S (S (S (S (clock w))))) with
            | Some e => (Err e, tick (tick (tick w1)))
            | None =>
                (Ok (SendFile b (name ++ "_storybook.pdf") "application/pdf"),
                 stored (pdf_path env name w) (FBytes b) (tick (tick w1)))
            end
        end
    end.
Proof.
  cbv beta iota zeta delta [assemble html_path pdf_path bind uuid4_hex_prefix
                            write_file html_write_pdf ret Ok Err].
  cbn [clock tick stored].
  destruct (fs_write env _ (S (clock w))); [reflexivity |].
  cbn [clock tick stored].
  destruct (write_pdf env _ (S (S (clock w)))); [reflexivity |].
  cbn [clock tick stored].
  destruct (fs_write env _ (S (S (S (S (clock w)))))); reflexivity.
Qed.

Lemma assemble_delivers env name story images w resp w' :
  assemble env name story images w = (Ok resp, w') ->
  exists b,
    resp = SendFile b (name ++ "_storybook.pdf") "application/pdf"
    /\ files w'
       = (pdf_path env name w, FBytes b)
         :: (html_path env w,
             FText (render_story_template story images name))
         :: files w
    /\ flashed w' = flashed w
    /\ sent w' = sent w.
Proof.
  rewrite assemble_eq. cbv zeta.
  destruct (fs_write env (html_path env w) (S (clock w))); [discriminate |].
  destruct (write_pdf env _ (S (S (clock w)))) as [e | b]; [discriminate |].
  destruct (fs_write env (pdf_path env name w) _); [discriminate |].
  intros H. inversion H; subst. exists b. repeat split.
Qed.

Lemma illustrate_flashed env name age story w :
  flashed (snd (illustrate env name age story w)) = flashed w.
Proof.
  unfold illustrate. rewrite bind_lift.
  destruct (py_get story "pages" (PList [])) as [e | v]; [reflexivity |].
  rewrite bind_lift.
  destruct (py_iter v) as [e | ps]; [reflexivity |].
  apply for_each_illustrate_frame.
Qed.

Lemma generate_story_keeps_files_and_notices env name age theme tone n w :
  files (snd (generate_story_with_openai env name age theme tone n w)) = files w
  /\ flashed (snd (generate_story_with_openai env name age theme tone n w))
     = flashed w.
Proof.
  destruct (string_dec (OPENAI_API_KEY env) "") as [Hk | Hk].
  - unfold generate_story_with_openai. rewrite Hk. split; reflexivity.
  - rewrite generate_story_world by exact Hk. split; reflexivity.
Qed.

(** ** What a job answers *)

(** X16. Whenever [create] answers, it answers in one of two ways. Either
    with a redirect to the form: then a notice starting with
    ["Error generating story: "] has been flashed and no file has been
    stored. Or with an attachment: then the attachment is named after the
    submitted name (or [Child]), has the PDF type, its bytes are exactly the
    bytes just stored as the final artifact, and no notice has been flashed.
    There is no answer with both a notice and a document. *)
Theorem create_notice_or_document env form w resp w' :
  create env form w = (Ok resp, w') ->
  (resp = Redirect "/"
   /\ files w' = files w
   /\ exists msg,
        flashed w' = ("Error generating story: " ++ msg) :: flashed w)
  \/ (exists body path rest,
        resp = SendFile body (form_get form "name" "Child" ++ "_storybook.pdf")
                 "application/pdf"
        /\ files w' = (path, FBytes body) :: rest
        /\ flashed w' = flashed w).
Proof.
  unfold create. rewrite bind_lift.
  destruct (read_form form) as [e | req] eqn:Hform; [discriminate |].
  assert (Hname : child_name req = form_get form "name" "Child").
  { unfold read_form in Hform. destruct (form_pages form); inversion Hform.
    reflexivity. }
  unfold bind at 1. unfold attempt.
  pose proof (generate_story_keeps_files_and_notices env (child_name req)
                (age req) (theme req) (tone req) (pages req) w) as (Hf1 & Hn1).
  destruct (generate_story_with_openai env (child_name req) (age req)
              (theme req) (tone req) (pages req) w) as [[e | story] w1];
    cbn [fst snd] in *.
  - intros H. inversion H; subst. left.
    split; [reflexivity | split; [exact Hf1 |]].
    exists (exn_msg e). cbn [flashed]. now rewrite Hn1.
  - cbv beta iota delta [Ok]. unfold bind at 1.
    pose proof (illustrate_flashed env (child_name req) (age req) story w1)
      as Hn2.
    destruct (illustrate env (child_name req) (age req) story w1)
      as [[e | images] w2]; cbn [snd] in Hn2; cbv beta iota;
      [intros H; discriminate H |].
    intros H. apply assemble_delivers in H.
    destruct H as (b & -> & Hfiles & Hflash & _).
    right. exists b, (pdf_path env (child_name req) w2).
    eexists. rewrite Hname in *.
    split; [reflexivity | split; [exact Hfiles | congruence]].
Qed.

Lemma create_notice_or_document_witness :
  exists resp w',
    create (Sample.offline 1) Sample.mina_form world0 = (Ok resp, w')
    /\ ((resp = Redirect "/"
         /\ files w' = files world0
         /\ exists msg,
              flashed w' = ("Error generating story: " ++ msg) :: flashed world0)
        \/ (exists body path rest,
              resp = SendFile body
                       (form_get Sample.mina_form "name" "Child"
                        ++ "_storybook.pdf") "application/pdf"
              /\ files w' = (path, FBytes body) :: rest
              /\ flashed w' = flashed world0)).
Proof.
  eexists. eexists.
  split.
  - vm_compute. reflexivity.
  - apply (create_notice_or_document (Sample.offline 1) Sample.mina_form
             world0).
    vm_compute. reflexivity.
Defined.

(** X17. A submitted page count that [int] rejects makes [create] raise that
    error before anything else happens: no request is sent to any provider,
    nothing is stored and no notice is flashed, whatever the configuration. *)
Theorem create_rejects_bad_page_count_first env form s e w :
  assoc_lookup "pages" form = Some s ->
  int_of_str s = Err e ->
  create env form w = (Err e, w).
Proof.
  intros Hs He. unfold create. rewrite bind_lift.
  unfold read_form, form_pages. rewrite Hs, He. reflexivity.
Qed.

Lemma create_rejects_bad_page_count_first_witness :
  exists e,
    exn_cls e = ValueError
    /\ create (Sample.text_provider "{}") [("name", "Mina"); ("pages", "four")]
         world0
       = (Err e, world0).
Proof.
  eexists. split.
  2: { apply (create_rejects_bad_page_count_first (Sample.text_provider "{}")
                [("name", "Mina"); ("pages", "four")] "four" _ world0
                eq_refl eq_refl). }
  reflexivity.
Defined.

(** ** Jobs without credentials *)





(** ** Where the files go *)

(** X19. The intermediate document is always stored directly under the
    output directory, under a drawn name. The final artifact is stored under
    a path built from the submitted name: for a name that starts with [/]
    the path is the name itself followed by [_storybook_], eight drawn
    characters and [.pdf], outside the output directory. *)
Theorem assemble_absolute_name_leaves_output_dir env rest story images w resp w' :
  let name := String "/" rest in
  assemble env name story images w = (Ok resp, w') ->
  exists b drawn drawn',
    files w'
    = (name ++ "_storybook_" ++ drawn' ++ ".pdf", FBytes b)
      :: ("output/story_" ++ drawn ++ ".html",
          FText (render_story_template story images name))
      :: files w.
Proof.
  intros name H. apply assemble_delivers in H.
  destruct H as (b & _ & Hfiles & _).
  exists b, (substring 0 8 (uuid4_hex env (clock w))),
         (substring 0 8 (uuid4_hex env (S (S (S (clock w)))))).
  exact Hfiles.
Qed.

Lemma assemble_absolute_name_leaves_output_dir_witness :
  exists b drawn drawn',
    files (snd (assemble (Sample.offline 1) "/tmp/mina" (PDict []) [] world0))
    = [ ("/tmp/mina" ++ "_storybook_" ++ drawn' ++ ".pdf", FBytes b);
        ("output/story_" ++ drawn ++ ".html",
         FText (render_story_template (PDict []) [] "/tmp/mina")) ].
Proof.
  exact (assemble_absolute_name_leaves_output_dir (Sample.offline 1)
           "tmp/mina" (PDict []) [] world0
           (SendFile Sample.pdf_stub "/tmp/mina_storybook.pdf"
              "application/pdf")
           (snd (assemble (Sample.offline 1) "/tmp/mina" (PDict []) []
                   world0))
           eq_refl).
Defined.

(** ** Seeds and page numbers *)

(** X20. The seed of a page is derived exactly when the page number is
    hashable: then it is a number from [0] to [2^32 - 1]; for a page number
    that is a list or a mapping (or a tuple holding one) the derivation
    raises a [TypeError]. *)
Theorem derive_seed_defined_iff_hashable env name page :
  (hashable page = true ->
   exists s, derive_seed env name page = Ok s /\ 0 <= s < 2 ^ 32)
  /\ (hashable page = false ->
      exists e, exn_cls e = TypeError /\ derive_seed env name page = Err e).
Proof.
  unfold derive_seed, py_hash. simpl hashable.
  split; intros H; rewrite H; simpl.
  - eexists. split; [reflexivity |]. apply Z.mod_pos_bound. reflexivity.
  - eexists. split; [| reflexivity]. reflexivity.
Qed.

Lemma derive_seed_defined_iff_hashable_witness :
  (exists s,
     derive_seed (Sample.offline 1) "Mina" (PStr "one") = Ok s
     /\ 0 <= s < 2 ^ 32)
  /\ (exists e,
        exn_cls e = TypeError
        /\ derive_seed (Sample.offline 1) "Mina" (PList [PInt 1]) = Err e).
Proof.
  split.
  - exact (proj1 (derive_seed_defined_iff_hashable (Sample.offline 1) "Mina"
                    (PStr "one")) eq_refl).
  - exact (proj2 (derive_seed_defined_iff_hashable (Sample.offline 1) "Mina"
                    (PList [PInt 1])) eq_refl).
Defined.

(** X21. A page record whose page number is not hashable gets no
    illustration and costs nothing: the loop body appends the absent result
    without drawing a name, sending a request or storing a file, even when
    the image provider is configured and would deliver. *)
Theorem illustrate_page_unhashable_number env name age entries number acc w :
  assoc_lookup "page" entries = Some number ->
  hashable number = false ->
  illustrate_page env name age (PDict entries) acc w
  = (Ok (acc ++ [None])%list, w).
Proof.
  intros Hnum Hhash.
  destruct (page_prompt_total env name age (PDict entries)) as [prompt Hp].
  { eexists; reflexivity. }
  rewrite (illustrate_page_spec env name age (PDict entries) acc prompt w Hp).
  unfold page_image. rewrite bind_lift.
  unfold page_seed, py_get, dict_get. rewrite Hnum.
  cbv beta iota delta [Ok].
  unfold derive_seed, py_hash. simpl hashable. rewrite Hhash.
  reflexivity.
Qed.

Lemma illustrate_page_unhashable_number_witness :
  illustrate_page (Sample.image_provider 7) "Mina" "6"
    (PDict [("page", PList [PInt 1]); ("image_description", PStr "a boat")])
    [] world0
  = (Ok [None], world0).
Proof.
  exact (illustrate_page_unhashable_number (Sample.image_provider 7) "Mina" "6"
           [("page", PList [PInt 1]); ("image_description", PStr "a boat")]
           (PList [PInt 1]) [] world0 eq_refl eq_refl).
Defined.

(** ** Image paths and stored files *)

Lemma generate_image_files env prompt hint seed w :
  incl (files w) (files (snd (generate_image env prompt hint seed w)))
  /\ forall path,
       fst (generate_image env prompt hint seed w) = Ok (Some path) ->
       exists b,
         b <> []
         /\ In (path, FBytes b)
              (files (snd (generate_image env prompt hint seed w))).
Proof.
  rewrite generate_image_eq.
  pose proof (dispatch_image_frame env (chosen_provider env hint) prompt seed
                (tick w)) as (Hfiles & _ & _).
  destruct (dispatch_image env (chosen_provider env hint) prompt seed (tick w))
    as [[e | [b |]] w1]; cbv beta iota; cbn [fst snd files tick] in *.
  1, 3: split; [rewrite Hfiles; apply incl_refl | intros path H; discriminate H].
  destruct b as [| x b]; unfold bytes_truthy; cbv beta iota; cbn [fst snd].
  { split; [rewrite Hfiles; apply incl_refl | intros path H; discriminate H]. }
  destruct (fs_write env (image_path env w) (clock w1));
    cbn [fst snd files tick stored].
  - split; [rewrite Hfiles; apply incl_refl | intros path H; discriminate H].
  - rewrite Hfiles. split.
    + apply incl_tl, incl_refl.
    + intros path H. inversion H; subst. exists (x :: b).
      split; [discriminate | left; reflexivity].
Qed.

Lemma illustrate_page_files env name age p acc w out w1 :
  illustrate_page env name age p acc w = (Ok out, w1) ->
  incl (files w) (files w1)
  /\ exists img,
       out = (acc ++ [img])%list
       /\ forall path,
            img = Some path ->
            exists b, b <> [] /\ In (path, FBytes b) (files w1).
Proof.
  unfold illustrate_page. rewrite bind_lift.
  destruct (page_prompt env name age p) as [e | prompt];
    [intros H; discriminate H |].
  unfold bind at 1. rewrite try_except_absorbs. cbv beta iota delta [Ok ret].
  intros H. inversion H; subst; clear H.
  unfold page_image. rewrite bind_lift.
  destruct (page_seed env name p) as [e | seed]; cbn [fst snd absorbed].
  - split; [apply incl_refl |]. exists None.
    split; [reflexivity | intros path H; discriminate H].
  - destruct (generate_image_files env prompt None (Some seed) w)
      as (Hincl & Hpath).
    split; [exact Hincl |].
    exists (absorbed (fst (generate_image env prompt None (Some seed) w))).
    split; [reflexivity |].
    intros path Himg. apply Hpath.
    destruct (fst (generate_image env prompt None (Some seed) w))
      as [e | [q |]]; simpl in Himg; try discriminate Himg.
    inversion Himg. reflexivity.
Qed.

Lemma for_each_paths_stored env name age ps :
  forall acc w out w',
    for_each ps (illustrate_page env name age) acc w = (Ok out, w') ->
    (forall path,
       In (Some path) acc ->
       exists b, b <> [] /\ In (path, FBytes b) (files w)) ->
    forall path,
      In (Some path) out ->
      exists b, b <> [] /\ In (path, FBytes b) (files w').
Proof.
  induction ps as [| p ps IH]; intros acc w out w' Hrun Hacc; simpl in Hrun.
  - inversion Hrun; subst. exact Hacc.
  - unfold bind in Hrun.
    destruct (illustrate_page env name age p acc w) as [[e | acc'] w1] eqn:Hp;
      [discriminate Hrun |].
    destruct (illustrate_page_files env name age p acc w acc' w1 Hp)
      as (Hincl & img & -> & Himg).
    apply (IH _ _ _ _ Hrun).
    intros path Hin. apply in_app_or in Hin. destruct Hin as [Hin | Hin].
    + destruct (Hacc path Hin) as (b & Hb & Hfile).
      exists b. split; [exact Hb | apply Hincl, Hfile].
    + destruct Hin as [Hin | []]. apply Himg. exact Hin.
Qed.

(** X22. Every path among the results of the illustration names a file that
    the illustration has stored, with non-empty image bytes: the document is
    never handed the path of an image that was not written. *)
Theorem illustrate_paths_are_stored env name age story w images w' :
  illustrate env name age story w = (Ok images, w') ->
  forall path,
    In (Some path) images ->
    exists b, b <> [] /\ In (path, FBytes b) (files w').
Proof.
  unfold illustrate. rewrite bind_lift.
  destruct (py_get story "pages" (PList [])) as [e | v];
    [intros H; discriminate H |].
  rewrite bind_lift.
  destruct (py_iter v) as [e | ps]; [intros H; discriminate H |].
  intros Hrun. apply (for_each_paths_stored env name age ps [] w images w' Hrun).
  intros path [].
Qed.

Lemma illustrate_paths_are_stored_witness :
  let run :=
    illustrate (Sample.image_provider 7) "Mina" "6"
      (sample_story (Sample.image_provider 7) "Mina" "6" "ocean" "playful" 4)
      world0 in
  In (Some "output/img_8a0b1c2d3e4f.png")
     [ Some "output/img_0a0b1c2d3e4f.png"; Some "output/img_3a0b1c2d3e4f.png";
       None; Some "output/img_8a0b1c2d3e4f.png" ]
  /\ exists b,
       b <> []
       /\ In ("output/img_8a0b1c2d3e4f.png", FBytes b) (files (snd run)).
Proof.
  assert (Hin : In (Some "output/img_8a0b1c2d3e4f.png")
                  [ Some "output/img_0a0b1c2d3e4f.png";
                    Some "output/img_3a0b1c2d3e4f.png";
                    None; Some "output/img_8a0b1c2d3e4f.png" ])
    by (simpl; auto).
  split; [exact Hin |].
  apply (illustrate_paths_are_stored (Sample.image_provider 7) "Mina" "6"
           (sample_story (Sample.image_provider 7) "Mina" "6" "ocean"
              "playful" 4)
           world0
           [ Some "output/img_0a0b1c2d3e4f.png";
             Some "output/img_3a0b1c2d3e4f.png";
             None; Some "output/img_8a0b1c2d3e4f.png" ]
           _ ltac:(vm_compute; reflexivity) _ Hin).
Defined.

(** ** The document that [assemble] stores and renders *)

(** C6. For a story and a sequence of illustration results of the same
    length as its pages, the document that [assemble] stores as the
    intermediate representation, and hands to the renderer to obtain the
    bytes it returns, has exactly one section per page: the texts of the
    sections are the texts of the pages, in the order of the pages, and the
    images of the sections are the results, in their order. *)
Theorem assemble_renders_one_section_per_page env name story images w :
  List.length images = List.length (template_pages story) ->
  let doc := render_story_template story images name in
    List.length (doc_sections doc) = List.length (template_pages story)
    /\ map sec_text (doc_sections doc)
       = map (fun p => template_field p "page_text") (template_pages story)
    /\ map sec_image (doc_sections doc) = images
    /\ (forall b,
          fs_write env (html_path env w) (S (clock w)) = None ->
          write_pdf env doc (S (S (clock w))) = Ok b ->
          fs_write env (pdf_path env name w) (S (S (S (S (clock w))))) = None ->
          exists w',
            assemble env name story images w
            = (Ok (SendFile b (name ++ "_storybook.pdf") "application/pdf"),
               w')
            /\ files w'
               = (pdf_path env name w, FBytes b)
                 :: (html_path env w, FText doc) :: files w)
    /\ (forall resp w',
          assemble env name story images w = (Ok resp, w') ->
          exists b,
            resp = SendFile b (name ++ "_storybook.pdf") "application/pdf"
            /\ write_pdf env doc (S (S (clock w))) = Ok b
            /\ files w'
               = (pdf_path env name w, FBytes b)
                 :: (html_path env w, FText doc) :: files w).
Proof.
  intros Hlen doc. subst doc.
  destruct (page_sections_spec (template_pages story) images Hlen)
    as (Hl & Ht & Hi).
  split; [exact Hl | split; [exact Ht | split; [exact Hi | split]]].
  - intros b Hhtml Hpdf Hfinal. rewrite assemble_eq. cbv zeta.
    rewrite Hhtml. unfold Ok in Hpdf. rewrite Hpdf, Hfinal.
    eexists. split; reflexivity.
  - intros resp w'. rewrite assemble_eq. cbv zeta.
    destruct (fs_write env (html_path env w) (S (clock w)));
      [intros H; discriminate H |].
    destruct (write_pdf env (render_story_template story images name)
                (S (S (clock w)))) as [e | b]; [intros H; discriminate H |].
    destruct (fs_write env (pdf_path env name w) _);
      [intros H; discriminate H |].
    intros H. inversion H; subst. exists b. repeat split.
Qed.

Lemma assemble_renders_one_section_per_page_witness :
  let story := sample_story (Sample.offline 1) "Mina" "6" "ocean" "playful" 2 in
  let images := [Some "output/img_0.png"; None] in
  List.length images = List.length (template_pages story)
  /\ let doc := render_story_template story images "Mina" in
       map sec_text (doc_sections doc)
       = [ Some (PStr "Page 1: Mina does something fun in the ocean.");
           Some (PStr "Page 2: Mina does something fun in the ocean.") ]
       /\ map sec_image (doc_sections doc) = images
       /\ exists w',
            assemble (Sample.offline 1) "Mina" story images world0
            = (Ok (SendFile Sample.pdf_stub "Mina_storybook.pdf"
                     "application/pdf"), w')
            /\ files w'
               = [ ("output/Mina_storybook_3a0b1c2d.pdf",
                    FBytes Sample.pdf_stub);
                   ("output/story_0a0b1c2d.html", FText doc) ].
Proof.
  split; [reflexivity |].
  destruct (assemble_renders_one_section_per_page (Sample.offline 1) "Mina"
              (sample_story (Sample.offline 1) "Mina" "6" "ocean" "playful" 2)
              [Some "output/img_0.png"; None] world0 eq_refl)
    as (_ & Htexts & Himages & Hrun & _).
  split; [exact Htexts | split; [exact Himages |]].
  exact (Hrun Sample.pdf_stub eq_refl eq_refl eq_refl).
Defined.
